(** * The blog-generation Lambda handler (main.py) and its page
      (blog_creater_app.py)

    A shallow embedding of [validate_input], [content_generation],
    [s3_uploader], [format_response] and [lambda_handler], and the
    properties of the request pipeline proved about them; then, in the
    module [App], of [input_section], [call_lambda_backend] and [main] of
    the page that calls the handler, and of the two together.

    Conventions of the model.
    - A Python [str] is a [string] whose characters are code points below
      256; [isspace] and [lower_char] follow Python on that range.
    - The values that travel through the handler are the Python objects
      [json.loads] produces: [None], [bool], [int], [float], [str], [list],
      [dict]. A [dict] is an association list in insertion order; lookup
      returns the first binding of a key.
    - Exceptions are explicit: a computation ends in [Return] or [Raise].
    - What the handler does to the outside (log records, the Bedrock call,
      the S3 write) is recorded, in order, in a trace; what the outside
      answers is read from an environment [Env]. *)

From Stdlib Require Import Bool Arith Lia List String Ascii ZArith QArith.
From Stdlib Require Import DecimalString.
Import ListNotations.

Local Close Scope Q_scope.
Local Open Scope list_scope.
Local Open Scope string_scope.
Local Open Scope nat_scope.

Set Implicit Arguments.

(* ------------------------------------------------------------------ *)
(** * Python strings *)

Module PyStr.

(** The line feed that ends each line of a triple-quoted literal. *)
Definition nl : string := String (ascii_of_nat 10) EmptyString.

(** [str.isspace] on one code point below 256: U+0009..U+000D,
    U+001C..U+0020, U+0085 and U+00A0. *)
Definition isspace (c : ascii) : bool :=
  let n := nat_of_ascii c in
  ((9 <=? n) && (n <=? 13)) || ((28 <=? n) && (n <=? 32))
  || (n =? 133) || (n =? 160).

(** [s.lstrip()] *)
Fixpoint lstrip (s : string) : string :=
  match s with
  | EmptyString => EmptyString
  | String c s' => if isspace c then lstrip s' else s
  end.

(** [s.rstrip()] *)
Fixpoint rstrip (s : string) : string :=
  match s with
  | EmptyString => EmptyString
  | String c s' =>
      match rstrip s' with
      | EmptyString => if isspace c then EmptyString else String c EmptyString
      | t => String c t
      end
  end.

(** [s.strip()] *)
Definition strip (s : string) : string := rstrip (lstrip s).

(** [str.lower] on one code point below 256: A..Z and the capital
    letters U+00C0..U+00DE (U+00D7, the multiplication sign, apart). *)
Definition lower_char (c : ascii) : ascii :=
  let n := nat_of_ascii c in
  if ((65 <=? n) && (n <=? 90))
     || ((192 <=? n) && (n <=? 214))
     || ((216 <=? n) && (n <=? 222))
  then ascii_of_nat (n + 32) else c.

(** [s.lower()] *)
Fixpoint lower (s : string) : string :=
  match s with
  | EmptyString => EmptyString
  | String c s' => String (lower_char c) (lower s')
  end.

(** [not s]: the truth test of a string. *)
Definition is_empty (s : string) : bool :=
  match s with EmptyString => true | _ => false end.

(** Every character of [s] is whitespace. *)
Fixpoint all_space (s : string) : bool :=
  match s with
  | EmptyString => true
  | String c s' => isspace c && all_space s'
  end.

(** [s] neither starts nor ends with whitespace. *)
Definition no_leading_space (s : string) : Prop :=
  forall c t, s = String c t -> isspace c = false.

Definition no_trailing_space (s : string) : Prop :=
  forall c t, s = t ++ String c EmptyString -> isspace c = false.

Definition trimmed (s : string) : Prop :=
  no_leading_space s /\ no_trailing_space s.

(** [p] occurs in [s]. *)
Definition occurs_in (p s : string) : Prop :=
  exists a b, s = a ++ p ++ b.

End PyStr.
Import PyStr.

(* ------------------------------------------------------------------ *)
(** * Python values and exceptions *)

(** The objects [json.loads] builds, which are also the objects
    [json.dumps] accepts. A float carries the decimal value of its
    literal. *)
#[warnings="-register-all"] Inductive pyval : Type :=
| VNone
| VBool (b : bool)
| VInt (n : Z)
| VFloat (q : Q)
| VStr (s : string)
| VList (l : list pyval)
| VDict (d : list (string * pyval)).

(** [type(v).__name__] *)
Definition type_name (v : pyval) : string :=
  match v with
  | VNone => "NoneType"
  | VBool _ => "bool"
  | VInt _ => "int"
  | VFloat _ => "float"
  | VStr _ => "str"
  | VList _ => "list"
  | VDict _ => "dict"
  end.

Definition is_str (v : pyval) : bool :=
  match v with VStr _ => true | _ => false end.

(** The exception classes the handler tells apart. [JSONDecodeError] is
    a subclass of [ValueError]; [OtherException] stands for every other
    subclass of [Exception] (the errors of boto3 among them). *)
Inductive exn_class : Type :=
| JSONDecodeError
| ValueError
| AttributeError
| KeyError
| TypeError
| OtherException.

(** An exception object: its class and [str(e)]. *)
Record exn : Type := Exn { class_of : exn_class; str_of : string }.

(** [isinstance(e, ValueError)] *)
Definition is_ValueError (e : exn) : bool :=
  match class_of e with
  | ValueError | JSONDecodeError => true
  | _ => false
  end.

(** [isinstance(e, json.JSONDecodeError)] *)
Definition is_JSONDecodeError (e : exn) : bool :=
  match class_of e with
  | JSONDecodeError => true
  | _ => false
  end.

(** How a computation ends. *)
Inductive outcome (A : Type) : Type :=
| Return (a : A)
| Raise (e : exn).
Arguments Raise {A} e.

Definition obind {A B} (m : outcome A) (f : A -> outcome B) : outcome B :=
  match m with
  | Return a => f a
  | Raise e => Raise e
  end.

(** [try: m  except Exception as e: h e], for code without effects. *)
Definition otry {A} (m : outcome A) (h : exn -> outcome A) : outcome A :=
  match m with
  | Return a => Return a
  | Raise e => h e
  end.

Definition raises {A} (m : outcome A) : Prop := exists e, m = Raise e.

(** The message of the [AttributeError] Python raises for [v.attr]. *)
Definition no_attribute (v : pyval) (attr : string) : exn :=
  Exn AttributeError
      ("'" ++ type_name v ++ "' object has no attribute '" ++ attr ++ "'").

(** First binding of [k] in a dict. *)
Fixpoint assoc (k : string) (d : list (string * pyval)) : option pyval :=
  match d with
  | [] => None
  | (k', v) :: d' => if String.eqb k k' then Some v else assoc k d'
  end.

(** [d.get(k, default)] on a dict. *)
Definition dict_get (d : list (string * pyval)) (k : string) (default : pyval)
  : pyval :=
  match assoc k d with
  | Some v => v
  | None => default
  end.

(** [v.get(k, default)]: only a dict has the method. *)
Definition py_get (v : pyval) (k : string) (default : pyval) : outcome pyval :=
  match v with
  | VDict d => Return (dict_get d k default)
  | _ => Raise (no_attribute v "get")
  end.

(** [v[k]] with a string key. *)
Definition py_getitem (v : pyval) (k : string) : outcome pyval :=
  match v with
  | VDict d =>
      match assoc k d with
      | Some x => Return x
      | None => Raise (Exn KeyError ("'" ++ k ++ "'"))
      end
  | VStr _ =>
      Raise (Exn TypeError "string indices must be integers, not 'str'")
  | VList _ =>
      Raise (Exn TypeError "list indices must be integers or slices, not str")
  | _ =>
      Raise (Exn TypeError ("'" ++ type_name v ++ "' object is not subscriptable"))
  end.

(** [v.strip()]: only a str has the method. *)
Definition py_strip (v : pyval) : outcome string :=
  match v with
  | VStr s => Return (strip s)
  | _ => Raise (no_attribute v "strip")
  end.

(** [v.lower()]: only a str has the method. *)
Definition py_lower (v : pyval) : outcome string :=
  match v with
  | VStr s => Return (lower s)
  | _ => Raise (no_attribute v "lower")
  end.

(* ------------------------------------------------------------------ *)
(** * The outside world *)

(** [botocore.config.Config] and the client it configures. *)
Record ClientConfig : Type := {
  service_name : string;
  region_name : string;
  read_timeout : Z;
  max_attempts : Z
}.

(** The keyword arguments of [s3.put_object]. *)
Record PutObjectRequest : Type := {
  Body : string;
  Bucket : string;
  Key : string;
  ContentType : string
}.

(** [datetime.now()], to the second: the fields [strftime] reads. *)
Record datetime : Type := {
  year : nat;
  month : nat;
  day : nat;
  hour : nat;
  minute : nat;
  second : nat
}.

(** The exceptions of [json.loads] on a str other than
    [JSONDecodeError]: the [ValueError] of the conversion of an integer
    literal with more digits than the interpreter allows (4300 unless it
    is set otherwise), and the [RecursionError] of a text nested too
    deep. Each message starts as written here; [detail] is what follows
    (the numbers of digits, the kind of value being decoded). *)
Inductive refusal : Type :=
| DigitLimit (detail : string)
| TooDeep (detail : string).

Definition refusal_exn (r : refusal) : exn :=
  match r with
  | DigitLimit detail => Exn ValueError ("Exceeds the limit " ++ detail)
  | TooDeep detail =>
      Exn OtherException ("maximum recursion depth exceeded" ++ detail)
  end.

(** What [json.loads] answers for a text: the decoded value, a
    [JSONDecodeError] (the text is not JSON) with its message, or one of
    the other exceptions of the decoder. *)
Inductive loads_result : Type :=
| Loaded (v : pyval)
| NotJSON (msg : string)
| Refused (r : refusal).

(** Everything the handler reads from outside itself.
    - [json_loads], [json_dumps]: the [json] module;
    - [py_format v]: [format(v, '')], that is [str(v)], of a value that is
      not a str (a str formats as itself);
    - [invoke_model cfg body modelId]: creating the Bedrock client with
      [cfg], calling [invoke_model] and reading and decoding the response
      body; either the body's text or the exception one of these raised;
    - [put_object req]: creating the S3 client and calling [put_object];
    - [now]: [datetime.now()]. *)
Record Env : Type := {
  json_loads : string -> loads_result;
  json_dumps : pyval -> string;
  py_format : pyval -> string;
  invoke_model : ClientConfig -> string -> string -> outcome string;
  put_object : PutObjectRequest -> outcome unit;
  now : datetime
}.

(** [env] with another storage service. *)
Definition with_put_object (env : Env) (p : PutObjectRequest -> outcome unit)
  : Env :=
  {| json_loads := json_loads env;
     json_dumps := json_dumps env;
     py_format := py_format env;
     invoke_model := invoke_model env;
     put_object := p;
     now := now env |}.

(** [json.loads(v)] *)
Definition py_json_loads (env : Env) (v : pyval) : outcome pyval :=
  match v with
  | VStr s =>
      match json_loads env s with
      | Loaded x => Return x
      | NotJSON msg => Raise (Exn JSONDecodeError msg)
      | Refused r => Raise (refusal_exn r)
      end
  | _ =>
      Raise (Exn TypeError
               ("the JSON object must be str, bytes or bytearray, not "
                ++ type_name v))
  end.

(** A replacement field [{v}] of an f-string. *)
Definition fstr (env : Env) (v : pyval) : string :=
  match v with
  | VStr s => s
  | _ => py_format env v
  end.

(** * Effects *)

Inductive log_level : Type := INFO | ERROR.

Inductive effect : Type :=
| Log (lvl : log_level) (msg : string)
| InvokeModel (cfg : ClientConfig) (body : string) (modelId : string)
| PutObject (req : PutObjectRequest).

(** A computation with effects: how it ends, and what it did before. *)
Definition M (A : Type) : Type := (outcome A * list effect)%type.

Definition ret {A} (a : A) : M A := (Return a, []).

Definition raise {A} (e : exn) : M A := (Raise e, []).

Definition bind {A B} (m : M A) (f : A -> M B) : M B :=
  match m with
  | (Return a, t) => let (r, t') := f a in (r, (t ++ t')%list)
  | (Raise e, t) => (Raise e, t)
  end.

(** [try: m  except Exception as e: h e] *)
Definition try_except {A} (m : M A) (h : exn -> M A) : M A :=
  match m with
  | (Return a, t) => (Return a, t)
  | (Raise e, t) => let (r, t') := h e in (r, (t ++ t')%list)
  end.

Definition lift {A} (m : outcome A) : M A := (m, []).

Definition perform (e : effect) : M unit := (Return tt, [e]).

Definition logger_info (msg : string) : M unit := perform (Log INFO msg).
Definition logger_error (msg : string) : M unit := perform (Log ERROR msg).

Declare Scope py_scope.
Delimit Scope py_scope with py.
Notation "x <- m ;; k" := (bind m (fun x => k))
  (at level 61, m at next level, right associativity) : py_scope.
Notation "m ;; k" := (bind m (fun _ => k))
  (at level 61, right associativity) : py_scope.
Notation "x <-- m ;; k" := (obind m (fun x => k))
  (at level 61, m at next level, right associativity) : py_scope.
Local Open Scope py_scope.

(* ------------------------------------------------------------------ *)
(** * main.py *)

Definition call_invoke_model (env : Env) (cfg : ClientConfig)
           (body modelId : string) : M string :=
  (invoke_model env cfg body modelId, [InvokeModel cfg body modelId]).

Definition call_put_object (env : Env) (req : PutObjectRequest) : M unit :=
  (put_object env req, [PutObject req]).

(** ** [strftime("%Y%m%d-%H%M%S")] *)

Definition digit (n : nat) : ascii := ascii_of_nat (48 + n mod 10).

(** [%m], [%d], [%H], [%M], [%S]: two decimal digits, zero padded. *)
Definition two_digits (n : nat) : string :=
  String (digit (n / 10)) (String (digit n) EmptyString).

(** [%Y]: four decimal digits (a year from 1000 to 9999 has no padding). *)
Definition four_digits (n : nat) : string :=
  String (digit (n / 1000)) (String (digit (n / 100)) (two_digits n)).

Definition strftime_Ymd_HMS (t : datetime) : string :=
  four_digits (year t) ++ two_digits (month t) ++ two_digits (day t)
  ++ "-" ++ two_digits (hour t) ++ two_digits (minute t)
  ++ two_digits (second t).

(** ** [content_generation] *)

(** The text returned when the model gives nothing usable. *)
Definition FALLBACK : string := "Failed to generate content. Please try again.".

(** The client configuration written in [content_generation]. *)
Definition bedrock_config : ClientConfig :=
  {| service_name := "bedrock-runtime";
     region_name := "us-east-1";
     read_timeout := 300;
     max_attempts := 3 |}.

Definition MODEL_ID : string := "us.meta.llama3-3-70b-instruct-v1:0".

(** The f-string bound to [full_prompt]. Its first replacement field,
    [expertise_level.lower()], is the only one that can raise. *)
Definition full_prompt (env : Env) (blogtopic : string)
           (expertise_level additional_context : pyval) : outcome string :=
  lowered <-- py_lower expertise_level ;;
  Return
    ("You are a helpful AI assistant. Follow these instructions exactly:" ++ nl
     ++ "    " ++ nl
     ++ "    1.Generate a 200-300 word informative blog post on the following topic for a "
     ++ lowered ++ " audience." ++ nl
     ++ "    3.Do NOT add any comments, disclaimers, or follow-up dialogue. Always return the blog content as plain text." ++ nl
     ++ nl
     ++ "    Topic: " ++ blogtopic ++ nl
     ++ "    Expertise Level: " ++ fstr env expertise_level ++ nl
     ++ "    Additional Context: " ++ fstr env additional_context ++ nl
     ++ "    ").

(** The dict bound to [body]. *)
Definition request_payload (prompt : string) : pyval :=
  VDict [("prompt", VStr prompt);
         ("max_gen_len", VInt 512);
         ("temperature", VFloat (5 # 10));
         ("top_p", VFloat (9 # 10))].

Definition content_generation (env : Env) (blogtopic : string)
           (expertise_level additional_context : pyval) : M pyval :=
  prompt <- lift (full_prompt env blogtopic expertise_level additional_context) ;;
  let body := request_payload prompt in
  try_except
    (logger_info ("Invoking Bedrock model with prompt: " ++ prompt) ;;
     response_body <-
       call_invoke_model env bedrock_config (json_dumps env body) MODEL_ID ;;
     logger_info ("Bedrock response: " ++ response_body) ;;
     response_json <- lift (py_json_loads env (VStr response_body)) ;;
     generation <- lift (py_get response_json "generation" (VStr "")) ;;
     generated_text <- lift (py_strip generation) ;;
     if is_empty generated_text then
       (logger_error "No valid content returned from the model." ;;
        ret (VDict [("blog", VStr FALLBACK)]))
     else
       ret (VDict [("blog", VStr generated_text)]))
    (fun e =>
       logger_error ("Bedrock invocation failed: " ++ str_of e) ;;
       ret (VDict [("blog", VStr FALLBACK)])).

(** ** [s3_uploader] *)

Definition s3_uploader (env : Env) (content : pyval) (bucket prefix : string)
  : M bool :=
  try_except
    (let timestamp := strftime_Ymd_HMS (now env) in
     let key := prefix ++ "/" ++ timestamp ++ ".txt" in
     blog <- lift (py_get content "blog" (VStr "")) ;;
     blog_content <- lift (py_strip blog) ;;
     call_put_object env
       {| Body := blog_content;
          Bucket := bucket;
          Key := key;
          ContentType := "text/plain" |} ;;
     ret true)
    (fun e =>
       logger_error ("S3 upload failed: " ++ str_of e) ;;
       ret false).

(** ** [validate_input] *)

(** The first statement of the [try] block: the request body, decoded
    when it is a str. *)
Definition request_body (env : Env) (event : pyval) : outcome pyval :=
  b <-- py_get event "body" VNone ;;
  if is_str b then
    (raw <-- py_getitem event "body" ;; py_json_loads env raw)
  else
    py_get event "body" (VDict []).

(** The rest of the [try] block: the three fields of the body. *)
Definition extract_fields (body : pyval) : outcome (string * pyval * pyval) :=
  topic <-- py_get body "blogTopic" (VStr "") ;;
  blog_topic <-- py_strip topic ;;
  if is_empty blog_topic then
    Raise (Exn ValueError "Blog topic is required")
  else
    (level <-- py_get body "level" (VStr "Intermediate") ;;
     context <-- py_get body "context" (VStr "") ;;
     Return (blog_topic, level, context)).

Definition validate_input (env : Env) (event : pyval)
  : outcome (string * pyval * pyval) :=
  otry
    (body <-- request_body env event ;; extract_fields body)
    (fun e =>
       if is_JSONDecodeError e then
         Raise (Exn ValueError "Invalid JSON payload")
       else
         Raise (Exn ValueError (str_of e))).

(** ** [format_response] *)

Record Response : Type := {
  statusCode : Z;
  headers : list (string * string);
  body : string
}.

Definition format_response (env : Env) (content : pyval) (status_code : Z)
  : Response :=
  {| statusCode := status_code;
     headers := [("Content-Type", "application/json");
                 ("Access-Control-Allow-Origin", "*")];
     body := json_dumps env content |}.

(** ** [lambda_handler] *)

(** The Lambda context object; the handler does not read it. *)
Inductive LambdaContext : Type := lambda_context.

Definition UPLOADED : string :=
  "Blog content successfully generated and uploaded.".

Definition NOT_UPLOADED : string := "Failed to upload blog content to S3.".

Definition lambda_handler (env : Env) (event : pyval) (context : LambdaContext)
  : M Response :=
  try_except
    (logger_info ("Incoming event: " ++ json_dumps env event) ;;
     fields <- lift (validate_input env event) ;;
     let '(blog_topic, expertise_level, additional_context) := fields in
     generated_content <-
       content_generation env blog_topic expertise_level additional_context ;;
     logger_info ("Generated Content: " ++ fstr env generated_content) ;;
     s3_upload_success <-
       s3_uploader env generated_content "blogcreatorbucket" "generated-content" ;;
     if s3_upload_success : bool then
       (blog <- lift (py_get generated_content "blog" (VStr "")) ;;
        ret (format_response env
               (VDict [("blog", blog); ("message", VStr UPLOADED)]) 200%Z))
     else
       (blog <- lift (py_get generated_content "blog" (VStr "")) ;;
        ret (format_response env
               (VDict [("blog", blog); ("message", VStr NOT_UPLOADED)]) 200%Z)))
    (fun e =>
       if is_ValueError e then
         (logger_error ("Input validation error: " ++ str_of e) ;;
          ret (format_response env
                 (VDict [("error", VStr (str_of e)); ("success", VBool false)])
                 400%Z))
       else
         (logger_error ("Unexpected error: " ++ str_of e) ;;
          ret (format_response env
                 (VDict [("error", VStr "Internal server error");
                         ("details", VStr (str_of e));
                         ("success", VBool false)])
                 500%Z))).

(* ------------------------------------------------------------------ *)
(** * Readings of the code used in the statements *)

(** The external calls of a trace: what is left when the log records are
    dropped. *)
Definition is_call (x : effect) : bool :=
  match x with
  | Log _ _ => false
  | _ => true
  end.

Definition calls (t : list effect) : list effect := filter is_call t.

(** The content normalizer, as written inline in [content_generation]:
    trim, then substitute the fallback for an empty text. *)
Definition normalize (text : string) : string :=
  if is_empty (strip text) then FALLBACK else strip text.

(** What the inference service answers to the request made for [prompt]. *)
Definition inference_outcome (env : Env) (prompt : string) : outcome string :=
  invoke_model env bedrock_config (json_dumps env (request_payload prompt))
               MODEL_ID.

(** The text [content_generation] files under ['blog'] for [prompt]. *)
Definition generated_blog (env : Env) (prompt : string) : string :=
  match inference_outcome env prompt with
  | Raise _ => FALLBACK
  | Return response_body =>
      match json_loads env response_body with
      | Loaded (VDict d) =>
          match dict_get d "generation" (VStr "") with
          | VStr g => normalize g
          | _ => FALLBACK
          end
      | _ => FALLBACK
      end
  end.

(** The inference call gave nothing usable: it raised (a timeout is
    raised as an exception), or the ['generation'] field of its answer is
    absent, empty or made of whitespace. *)
Definition inference_unusable (env : Env) (prompt : string) : Prop :=
  (exists e, inference_outcome env prompt = Raise e)
  \/ (exists response_body d,
        inference_outcome env prompt = Return response_body
        /\ json_loads env response_body = Loaded (VDict d)
        /\ (assoc "generation" d = None
            \/ exists g, assoc "generation" d = Some (VStr g)
                         /\ all_space g = true)).

(** The prompt built for a request whose level is a str. *)
Definition prompt_of (env : Env) (topic level : string) (context : pyval)
  : string :=
  match full_prompt env topic (VStr level) context with
  | Return p => p
  | Raise _ => ""
  end.

(** The request [s3_uploader] sends for [blog], called by the handler. *)
Definition upload_request (env : Env) (blog : string) : PutObjectRequest :=
  {| Body := strip blog;
     Bucket := "blogcreatorbucket";
     Key := "generated-content/" ++ strftime_Ymd_HMS (now env) ++ ".txt";
     ContentType := "text/plain" |}.

Definition upload_message (env : Env) (blog : string) : string :=
  match put_object env (upload_request env blog) with
  | Return _ => UPLOADED
  | Raise _ => NOT_UPLOADED
  end.

(** The three bodies a response carries. *)
Definition blog_body (blog message : string) : pyval :=
  VDict [("blog", VStr blog); ("message", VStr message)].

Definition validation_error_body (message : string) : pyval :=
  VDict [("error", VStr message); ("success", VBool false)].

Definition internal_error_body (details : string) : pyval :=
  VDict [("error", VStr "Internal server error");
         ("details", VStr details);
         ("success", VBool false)].

(** ** The request, as the specification speaks of it *)

(** The value under ['body'] of the event. *)
Definition event_body (event : pyval) : option pyval :=
  match event with
  | VDict e => assoc "body" e
  | _ => None
  end.

(** The value under ['blogTopic'] of the request body, when the body is
    there and is an object. *)
Definition blog_topic_of (env : Env) (event : pyval) : option pyval :=
  match request_body env event with
  | Return (VDict d) => assoc "blogTopic" d
  | _ => None
  end.

(** A str body that is not valid JSON. *)
Definition invalid_json_body (env : Env) (event : pyval) : Prop :=
  exists s msg, event_body event = Some (VStr s) /\ json_loads env s = NotJSON msg.



(** ** The prompt, as the specification speaks of it *)

(** The narrative instruction, for an audience. *)
Definition instruction_sentence (audience : string) : string :=
  "Generate a 200-300 word informative blog post on the following topic for a "
  ++ audience ++ " audience.".

(** The three fields, listed one per line. *)
Definition field_listing (topic level context : string) : string :=
  "Topic: " ++ topic ++ nl
  ++ "    Expertise Level: " ++ level ++ nl
  ++ "    Additional Context: " ++ context.

(** ** Timestamps *)

Definition digit_of (c : ascii) : option nat :=
  let n := nat_of_ascii c in
  if (48 <=? n) && (n <=? 57) then Some (n - 48) else None.

(** Reads [k] decimal digits. *)
Fixpoint read_number (k : nat) (acc : nat) (s : string) : option (nat * string) :=
  match k with
  | 0 => Some (acc, s)
  | S k' =>
      match s with
      | EmptyString => None
      | String c s' =>
          match digit_of c with
          | Some d => read_number k' (10 * acc + d) s'
          | None => None
          end
      end
  end.

Definition expect_dash (s : string) : option string :=
  match s with
  | String c s' => if Ascii.eqb c "-"%char then Some s' else None
  | EmptyString => None
  end.

(** Reads a text of the form YYYYMMDD-HHmmss, and nothing else. *)
Definition parse_Ymd_HMS (s : string) : option datetime :=
  match read_number 4 0 s with
  | None => None
  | Some (Y, s1) =>
  match read_number 2 0 s1 with
  | None => None
  | Some (m, s2) =>
  match read_number 2 0 s2 with
  | None => None
  | Some (d, s3) =>
  match expect_dash s3 with
  | None => None
  | Some s4 =>
  match read_number 2 0 s4 with
  | None => None
  | Some (H, s5) =>
  match read_number 2 0 s5 with
  | None => None
  | Some (Mi, s6) =>
  match read_number 2 0 s6 with
  | Some (sec, EmptyString) =>
      Some {| year := Y; month := m; day := d;
              hour := H; minute := Mi; second := sec |}
  | _ => None
  end end end end end end end.

(** The calendar fields of an instant [datetime.now()] can return, whose
    year has four digits. *)
Definition calendar_instant (t : datetime) : Prop :=
  1000 <= year t < 10 * 1000 /\ 1 <= month t <= 12 /\ 1 <= day t <= 31
  /\ hour t <= 23 /\ minute t <= 59 /\ second t <= 59.

(** ** Configuration *)

(** The retry and timeout parameters are exposed as configuration: some
    surroundings of the handler (environment, event, context) make the
    inference client with another read timeout or another number of
    attempts than some others do. *)
Definition retry_timeout_configurable : Prop :=
  exists env1 event1 context1 env2 event2 context2 cfg1 body1 id1 cfg2 body2 id2,
    In (InvokeModel cfg1 body1 id1) (snd (lambda_handler env1 event1 context1))
    /\ In (InvokeModel cfg2 body2 id2) (snd (lambda_handler env2 event2 context2))
    /\ (read_timeout cfg1 <> read_timeout cfg2
        \/ max_attempts cfg1 <> max_attempts cfg2).

(* ------------------------------------------------------------------ *)
(** * Sample requests and environments *)

Module Sample.

(** The double quote, for writing JSON texts. *)
Definition dq : string := String (ascii_of_nat 34) EmptyString.

(** The answer of the model: an object whose only field, generation,
    holds a text with blanks around it. *)
Definition response_text : string :=
  "{" ++ dq ++ "generation" ++ dq ++ ": " ++ dq
  ++ "  Ownership moves values. " ++ dq ++ "}".

(** A decoder that knows the answer of the model and takes every other
    text for invalid JSON. *)
Definition loads (s : string) : loads_result :=
  if String.eqb s response_text then
    Loaded (VDict [("generation", VStr "  Ownership moves values. ")])
  else NotJSON "Expecting value: line 1 column 1 (char 0)".

Definition instant : datetime :=
  {| year := 2024; month := 5; day := 17;
     hour := 9; minute := 3; second := 7 |}.

(** The model answers and the storage accepts the write. The serialized
    texts are not looked into, so the serializers write a placeholder. *)
Definition answering : Env :=
  {| json_loads := loads;
     json_dumps := fun _ => "{}";
     py_format := fun _ => "{}";
     invoke_model := fun _ _ _ => Return response_text;
     put_object := fun _ => Return tt;
     now := instant |}.

(** The inference call times out and the storage refuses the write. *)
Definition failing : Env :=
  {| json_loads := loads;
     json_dumps := fun _ => "{}";
     py_format := fun _ => "{}";
     invoke_model :=
       fun _ _ _ => Raise (Exn OtherException "Read timeout on endpoint URL");
     put_object := fun _ => Raise (Exn OtherException "Access Denied");
     now := instant |}.

(** A request as the form sends it. *)
Definition request : pyval :=
  VDict [("body", VDict [("blogTopic", VStr "  rust ownership ");
                         ("level", VStr "Advanced");
                         ("context", VStr "")])].

(** blogTopic is a number. *)
Definition numeric_topic : pyval :=
  VDict [("body", VDict [("blogTopic", VInt 5)])].

(** level is a number. *)
Definition numeric_level : pyval :=
  VDict [("body", VDict [("blogTopic", VStr "rust ownership");
                         ("level", VInt 3)])].

End Sample.

(* ------------------------------------------------------------------ *)
(** * Further readings of main.py *)

Definition is_dict (v : pyval) : bool :=
  match v with VDict _ => true | _ => false end.

(** The inference call answered, and the answer cannot be read: the text
    is not JSON, or is JSON but not an object, or holds under
    ['generation'] something that is not a str. *)
Definition inference_malformed (env : Env) (prompt : string) : Prop :=
  exists response_body,
    inference_outcome env prompt = Return response_body
    /\ ((exists msg, json_loads env response_body = NotJSON msg)
        \/ (exists v, json_loads env response_body = Loaded v
                      /\ is_dict v = false)
        \/ (exists d v, json_loads env response_body = Loaded (VDict d)
                        /\ assoc "generation" d = Some v
                        /\ is_str v = false)).

(** The write [s3_uploader] makes for a text, in a bucket, under a
    prefix. *)
Definition put_request (env : Env) (text bucket prefix : string)
  : PutObjectRequest :=
  {| Body := strip text;
     Bucket := bucket;
     Key := prefix ++ "/" ++ strftime_Ymd_HMS (now env) ++ ".txt";
     ContentType := "text/plain" |}.

(** [s3_uploader] cannot read a text out of [content]: it is not a
    dict, or its ['blog'] is not a str. *)
Definition no_blog_text (content : pyval) : Prop :=
  is_dict content = false
  \/ exists d v, content = VDict d /\ assoc "blog" d = Some v
                 /\ is_str v = false.

(** [c.isupper()] on one code point below 256: A..Z and the capital
    letters U+00C0..U+00DE, U+00D7 apart. *)
Definition is_uppercase (c : ascii) : bool :=
  let n := nat_of_ascii c in
  ((65 <=? n) && (n <=? 90))
  || ((192 <=? n) && (n <=? 214))
  || ((216 <=? n) && (n <=? 222)).

(** [t] is [s] in lower case: as long as [s], with each uppercase letter
    replaced by its lowercase form, which is 32 code points above it, and
    every other character kept. *)
Definition lowercase_of (s t : string) : Prop :=
  String.length t = String.length s
  /\ forall i c,
       String.get i s = Some c ->
       String.get i t
       = Some (if is_uppercase c then ascii_of_nat (nat_of_ascii c + 32)
               else c).

(** No character of [s] is an uppercase letter. *)
Definition no_uppercase (s : string) : Prop :=
  forall i c, String.get i s = Some c -> is_uppercase c = false.

(** More requests and environments. *)
Module Cases.

(** Only the topic is given. *)
Definition topic_only : pyval :=
  VDict [("body", VDict [("blogTopic", VStr "  rust ownership ")])].

(** The topic is made of blanks. *)
Definition blank_topic : pyval :=
  VDict [("body", VDict [("blogTopic", VStr "   ")])].

(** The request came without a body. *)
Definition null_body : pyval := VDict [("body", VNone)].

(** The body is a text that is not JSON. *)
Definition broken_json : pyval := VDict [("body", VStr "{blogTopic")].

(** The body of [Sample.request], as a JSON text. *)
Definition request_text : string :=
  "{" ++ Sample.dq ++ "blogTopic" ++ Sample.dq ++ ": "
  ++ Sample.dq ++ "  rust ownership " ++ Sample.dq ++ ", "
  ++ Sample.dq ++ "level" ++ Sample.dq ++ ": "
  ++ Sample.dq ++ "Advanced" ++ Sample.dq ++ ", "
  ++ Sample.dq ++ "context" ++ Sample.dq ++ ": "
  ++ Sample.dq ++ Sample.dq ++ "}".

Definition json_request : pyval := VDict [("body", VStr request_text)].

(** A decoder that also knows that text. *)
Definition loads (s : string) : loads_result :=
  if String.eqb s request_text then
    Loaded (VDict [("blogTopic", VStr "  rust ownership ");
                   ("level", VStr "Advanced");
                   ("context", VStr "")])
  else Sample.loads s.

Definition decoding : Env :=
  {| json_loads := loads;
     json_dumps := json_dumps Sample.answering;
     py_format := py_format Sample.answering;
     invoke_model := invoke_model Sample.answering;
     put_object := put_object Sample.answering;
     now := now Sample.answering |}.

(** The model answers with a page that is not JSON. *)
Definition garbled : Env :=
  {| json_loads := Sample.loads;
     json_dumps := json_dumps Sample.answering;
     py_format := py_format Sample.answering;
     invoke_model := fun _ _ _ => Return "<html>Bad Gateway</html>";
     put_object := put_object Sample.answering;
     now := now Sample.answering |}.

(** A text of [n] digits. *)
Fixpoint ones (n : nat) : string :=
  match n with
  | 0 => EmptyString
  | S n' => String "1" (ones n')
  end.

(** The body is a number of 4301 digits. *)
Definition long_number : pyval := VDict [("body", VStr (ones 4301))].

(** What the decoder raises on it. *)
Definition over_the_limit : refusal :=
  DigitLimit "(4300 digits) for integer string conversion: value has 4301 digits; use sys.set_int_max_str_digits() to increase the limit".

(** A decoder with the limit of 4300 digits. *)
Definition limited : Env :=
  {| json_loads :=
       fun s => if String.eqb s (ones 4301) then Refused over_the_limit
                else Sample.loads s;
     json_dumps := json_dumps Sample.answering;
     py_format := py_format Sample.answering;
     invoke_model := invoke_model Sample.answering;
     put_object := put_object Sample.answering;
     now := now Sample.answering |}.

(** One second after [Sample.instant]. *)
Definition next_second : datetime :=
  {| year := 2024; month := 5; day := 17;
     hour := 9; minute := 3; second := 8 |}.

Definition answering_later : Env :=
  {| json_loads := json_loads Sample.answering;
     json_dumps := json_dumps Sample.answering;
     py_format := py_format Sample.answering;
     invoke_model := invoke_model Sample.answering;
     put_object := put_object Sample.answering;
     now := next_second |}.

End Cases.

(* ------------------------------------------------------------------ *)
(** * blog_creater_app.py *)

(** The page that calls the handler over HTTP. A run of the script reads
    the widgets and the session state, and leaves a trace of what it
    sends and of what it shows in answer: the request, the spinner, the
    messages, the generated text and the download button. The static
    parts of the page (configuration, style sheet, header, and the labels
    of the widgets, which hold characters above U+00FF) are not in the
    trace. *)
Module App.

(** How a run can fail: with an exception of [requests]
    ([requests.exceptions.RequestException] or a subclass, and its
    [str(e)]), or with any other exception. *)
Inductive failure : Type :=
| RequestException (msg : string)
| OtherError (e : exn).

Inductive attempt (A : Type) : Type :=
| Done (a : A)
| Failed (f : failure).
Arguments Failed {A} f.

(** The response of [requests.post]: [response.status_code], and what
    [response.json()] gives. *)
Record HttpResponse : Type := {
  status_code : Z;
  json : attempt pyval
}.

(** The arguments of [requests.post]. *)
Record PostRequest : Type := {
  url : string;
  payload_json : pyval;
  request_headers : list (string * string);
  timeout : Z
}.

(** The arguments of [st.download_button], the label apart. *)
Record DownloadButton : Type := {
  data : pyval;
  file_name : string;
  mime : string
}.

Inductive action : Type :=
| Post (r : PostRequest)
| Spinner (text : string)
| ShowError (msg : string)
| ShowSuccess (msg : string)
| Subheader (text : string)
| WriteOut (v : pyval)
| Download (b : DownloadButton).

(** What a run reads: the three input widgets, the two buttons (true in
    the run that a click starts), the network and the clock. *)
Record Page : Type := {
  input_topic : string;
  input_expertise : string;
  input_context : string;
  generate_clicked : bool;
  clear_clicked : bool;
  requests_post : PostRequest -> attempt HttpResponse;
  clock : datetime
}.

Definition UI (A : Type) : Type := (attempt A * list action)%type.

Definition ui_ret {A} (a : A) : UI A := (Done a, []).

Definition ui_bind {A B} (m : UI A) (f : A -> UI B) : UI B :=
  match m with
  | (Done a, t) => let (r, t') := f a in (r, (t ++ t')%list)
  | (Failed x, t) => (Failed x, t)
  end.

Definition ui_lift {A} (m : attempt A) : UI A := (m, []).

Definition act (a : action) : UI unit := (Done tt, [a]).

(** An exception of the handler's Python, raised in the page. *)
Definition of_outcome {A} (m : outcome A) : UI A :=
  match m with
  | Return a => (Done a, [])
  | Raise e => (Failed (OtherError e), [])
  end.

(** [try: m  except requests.exceptions.RequestException as e: h (str e)] *)
Definition except_RequestException {A} (m : UI A) (h : string -> UI A) : UI A :=
  match m with
  | (Failed (RequestException msg), t) =>
      let (r, t') := h msg in (r, (t ++ t')%list)
  | other => other
  end.

Declare Scope ui_scope.
Delimit Scope ui_scope with ui.
Notation "x <- m ;; k" := (ui_bind m (fun x => k))
  (at level 61, m at next level, right associativity) : ui_scope.
Notation "m ;; k" := (ui_bind m (fun _ => k))
  (at level 61, right associativity) : ui_scope.
Local Open Scope ui_scope.

(** [p in s] for two strs: [p] occurs in [s]. *)
Fixpoint str_contains (s p : string) : bool :=
  match s with
  | EmptyString => String.prefix p EmptyString
  | String _ s' => String.prefix p s || str_contains s' p
  end.

(** [item in container] for a str item: a key of a dict, an element of a
    list, a part of a str; the other values are not containers. *)
Definition py_in (item : string) (container : pyval) : outcome bool :=
  match container with
  | VDict d =>
      Return (match assoc item d with Some _ => true | None => false end)
  | VList l =>
      Return (existsb (fun x => match x with
                                | VStr s => String.eqb s item
                                | _ => false
                                end) l)
  | VStr s => Return (str_contains s item)
  | _ =>
      Raise (Exn TypeError
               ("argument of type '" ++ type_name container
                ++ "' is not iterable"))
  end.

(** [bool(v)]: the truth test of [if v:]. *)
Definition truthy (v : pyval) : bool :=
  match v with
  | VNone => false
  | VBool b => b
  | VInt n => negb (n =? 0)%Z
  | VFloat q => negb (Qeq_bool q 0)
  | VStr s => negb (is_empty s)
  | VList l => match l with [] => false | _ :: _ => true end
  | VDict d => match d with [] => false | _ :: _ => true end
  end.

(** [str(n)] of an int. *)
Definition str_of_int (n : Z) : string :=
  DecimalString.NilZero.string_of_int (Z.to_int n).

(** [strftime('%Y%m%d_%H%M%S')] *)
Definition strftime_Ymd_HMS_underscore (t : datetime) : string :=
  four_digits (year t) ++ two_digits (month t) ++ two_digits (day t)
  ++ "_" ++ two_digits (hour t) ++ two_digits (minute t)
  ++ two_digits (second t).

Definition API_ENDPOINT : string :=
  "https://d9lskv83ek.execute-api.us-east-1.amazonaws.com/dev/agentbedrock".

(** ** [input_section] *)

Definition input_section (page : Page) : string * string * string :=
  (strip (input_topic page), input_expertise page, strip (input_context page)).

(** ** [call_lambda_backend] *)

(** The dict bound to [payload]. *)
Definition payload_of (topic expertise context : string) : pyval :=
  VDict [("blogTopic", VStr topic);
         ("level", VStr expertise);
         ("context", VStr context)].

Definition post_request (topic expertise context : string) : PostRequest :=
  {| url := API_ENDPOINT;
     payload_json := payload_of topic expertise context;
     request_headers := [("Content-Type", "application/json")];
     timeout := 30 |}.

Definition call_post (page : Page) (r : PostRequest) : UI HttpResponse :=
  (requests_post page r, [Post r]).

(** The result is [VNone] where the source returns [None]. *)
Definition call_lambda_backend (page : Page) (topic expertise context : string)
  : UI pyval :=
  except_RequestException
    (response <- call_post page (post_request topic expertise context) ;;
     if (status_code response =? 200)%Z then
       (content <- ui_lift (json response) ;;
        found <- of_outcome (py_in "blog" content) ;;
        if found : bool then of_outcome (py_getitem content "blog")
        else ui_ret VNone)
     else
       (act (ShowError ("API returned status code: "
                        ++ str_of_int (status_code response))) ;;
        ui_ret VNone))
    (fun msg =>
       act (ShowError ("Error connecting to API: " ++ msg)) ;;
       ui_ret VNone).

(** ** [main] *)

(** One run of the script, from the value of
    [st.session_state.generated_content] before it (the script sets it to
    [None] when the key is missing) to the value after it. *)
Definition main (page : Page) (generated_content : pyval) : UI pyval :=
  let '(topic, expertise, context) := input_section page in
  after_generate <-
    (if generate_clicked page then
       (act (Spinner "Generating content...") ;;
        content <- call_lambda_backend page topic expertise context ;;
        if truthy content then
          (act (ShowSuccess "Content generated successfully!") ;;
           ui_ret content)
        else
          (act (ShowError "Failed to generate content. Please try again.") ;;
           ui_ret generated_content))
     else ui_ret generated_content) ;;
  let after_clear := if clear_clicked page then VNone else after_generate in
  (if truthy after_clear then
     (act (Subheader "Generated Content") ;;
      act (WriteOut after_clear) ;;
      act (Download
             {| data := after_clear;
                file_name := "content_"
                             ++ strftime_Ymd_HMS_underscore (clock page)
                             ++ ".txt";
                mime := "text/plain" |}))
   else ui_ret tt) ;;
  ui_ret after_clear.

(** ** Readings *)

Definition is_post (a : action) : bool :=
  match a with Post _ => true | _ => false end.

(** The requests of a trace. *)
Definition requests_of (t : list action) : list action := filter is_post t.

(** What a trace shows of generated content. *)
Definition is_content (a : action) : bool :=
  match a with
  | Subheader _ | WriteOut _ | Download _ => true
  | _ => false
  end.

Definition content_of (t : list action) : list action := filter is_content t.

(** The button that offers [v] as a file. *)
Definition download_button (page : Page) (v : pyval) : DownloadButton :=
  {| data := v;
     file_name := "content_" ++ strftime_Ymd_HMS_underscore (clock page)
                  ++ ".txt";
     mime := "text/plain" |}.

(** The generated content [v], as the page shows it. *)
Definition shown_content (page : Page) (v : pyval) : list action :=
  [Subheader "Generated Content"; WriteOut v; Download (download_button page v)].

(** What the page shows of a session state. *)
Definition display (page : Page) (v : pyval) : list action :=
  if truthy v then shown_content page v else [].

(** The values [in] can look into. *)
Definition is_container (v : pyval) : bool :=
  match v with
  | VDict _ | VList _ | VStr _ => true
  | _ => false
  end.

(** The request a run sends for what is in the form. *)
Definition form_request (page : Page) : PostRequest :=
  post_request (strip (input_topic page)) (input_expertise page)
               (strip (input_context page)).

End App.

(** Sample visits of the page. *)
Module Visit.

Import App.

(** The object the handler answers a good request with. *)
Definition answer : pyval :=
  VDict [("blog", VStr "Ownership moves values.");
         ("message", VStr UPLOADED)].

(** The object the handler answers with when the model fails and the
    storage refuses the write. *)
Definition fallback_answer : pyval :=
  VDict [("blog", VStr FALLBACK); ("message", VStr NOT_UPLOADED)].

(** The visitor filled the form and clicked Generate Content; the
    endpoint answers 200 with [answer]. *)
Definition answered : Page :=
  {| input_topic := "  rust ownership ";
     input_expertise := "Advanced";
     input_context := "";
     generate_clicked := true;
     clear_clicked := false;
     requests_post :=
       fun _ => Done {| status_code := 200; json := Done answer |};
     clock := Sample.instant |}.

(** The same click; the endpoint answers 200 with [fallback_answer]. *)
Definition answered_fallback : Page :=
  {| input_topic := "  rust ownership ";
     input_expertise := "Advanced";
     input_context := "";
     generate_clicked := true;
     clear_clicked := false;
     requests_post :=
       fun _ => Done {| status_code := 200; json := Done fallback_answer |};
     clock := Sample.instant |}.

(** The topic was left blank; the endpoint answers 400. *)
Definition refused : Page :=
  {| input_topic := "   ";
     input_expertise := "Beginner";
     input_context := "";
     generate_clicked := true;
     clear_clicked := false;
     requests_post :=
       fun _ =>
         Done {| status_code := 400;
                 json := Done (VDict [("error", VStr "Blog topic is required");
                                      ("success", VBool false)]) |};
     clock := Sample.instant |}.

(** The endpoint cannot be reached. *)
Definition unreachable : Page :=
  {| input_topic := "rust ownership";
     input_expertise := "Beginner";
     input_context := "";
     generate_clicked := true;
     clear_clicked := false;
     requests_post := fun _ => Failed (RequestException "Connection refused");
     clock := Sample.instant |}.

(** The endpoint answers 200 with a number. *)
Definition answered_number : Page :=
  {| input_topic := "rust ownership";
     input_expertise := "Beginner";
     input_context := "";
     generate_clicked := true;
     clear_clicked := false;
     requests_post :=
       fun _ => Done {| status_code := 200; json := Done (VInt 7) |};
     clock := Sample.instant |}.

(** A run that no click started. *)
Definition idle : Page :=
  {| input_topic := "rust ownership";
     input_expertise := "Beginner";
     input_context := "";
     generate_clicked := false;
     clear_clicked := false;
     requests_post := fun _ => Failed (RequestException "Connection refused");
     clock := Sample.instant |}.

(** The visitor clicked Clear. *)
Definition clearing : Page :=
  {| input_topic := "rust ownership";
     input_expertise := "Beginner";
     input_context := "";
     generate_clicked := false;
     clear_clicked := true;
     requests_post := fun _ => Failed (RequestException "Connection refused");
     clock := Sample.instant |}.

(** A serializer that tells [answer] and [fallback_answer] from every
    other object. *)
Definition dumps (v : pyval) : string :=
  match v with
  | VDict [(k1, VStr b); (k2, VStr m)] =>
      if String.eqb k1 "blog" && String.eqb k2 "message" then
        if String.eqb b "Ownership moves values." && String.eqb m UPLOADED
        then "answer"
        else if String.eqb b FALLBACK && String.eqb m NOT_UPLOADED
             then "fallback_answer"
             else "{}"
      else "{}"
  | _ => "{}"
  end.

(** [Sample.answering] and [Sample.failing] with that serializer. *)
Definition answering : Env :=
  {| json_loads := json_loads Sample.answering;
     json_dumps := dumps;
     py_format := py_format Sample.answering;
     invoke_model := invoke_model Sample.answering;
     put_object := put_object Sample.answering;
     now := now Sample.answering |}.

Definition failing : Env :=
  {| json_loads := json_loads Sample.failing;
     json_dumps := dumps;
     py_format := py_format Sample.failing;
     invoke_model := invoke_model Sample.failing;
     put_object := put_object Sample.failing;
     now := now Sample.failing |}.

(** The event that carries the payload of a visit as its body. *)
Definition event_of (page : Page) : pyval :=
  VDict [("body",
          payload_of (strip (input_topic page)) (input_expertise page)
                     (strip (input_context page)))].

End Visit.

(* ------------------------------------------------------------------ *)
(** * Facts about strings *)

Section StringFacts.

Lemma append_empty_r (s : string) : s ++ "" = s.
Proof. induction s as [|c s IH]; simpl; [reflexivity | now rewrite IH]. Qed.

Lemma append_assoc (a b c : string) : (a ++ b) ++ c = a ++ (b ++ c).
Proof. induction a as [|x a IH]; simpl; [reflexivity | now rewrite IH]. Qed.

Lemma is_empty_true (s : string) : is_empty s = true <-> s = "".
Proof. destruct s; simpl; split; congruence. Qed.

Lemma is_empty_false (s : string) : is_empty s = false <-> s <> "".
Proof. destruct s; simpl; split; congruence. Qed.

Lemma lstrip_no_leading (s : string) : no_leading_space s -> lstrip s = s.
Proof.
  destruct s as [|c t]; intros H; simpl; [reflexivity|].
  now rewrite (H c t eq_refl).
Qed.

Lemma no_trailing_tail (c : ascii) (s : string) :
  s <> "" -> no_trailing_space (String c s) -> no_trailing_space s.
Proof.
  intros _ H x t E. apply (H x (String c t)). simpl. now rewrite E.
Qed.

Lemma rstrip_no_trailing (s : string) : no_trailing_space s -> rstrip s = s.
Proof.
  induction s as [|c s IH]; intros H; simpl; [reflexivity|].
  destruct s as [|c' s'].
  - simpl. now rewrite (H c "" eq_refl).
  - rewrite IH by (apply (no_trailing_tail (c := c)); [discriminate | exact H]).
    reflexivity.
Qed.

(** A trimmed text is a fixed point of [strip]. *)
Lemma strip_trimmed (s : string) : trimmed s -> strip s = s.
Proof.
  intros [Hl Hr]. unfold strip.
  rewrite (lstrip_no_leading Hl). now apply rstrip_no_trailing.
Qed.

Lemma rstrip_empty (s : string) : is_empty (rstrip s) = all_space s.
Proof.
  induction s as [|c s IH]; simpl; [reflexivity|].
  destruct (rstrip s) as [|x t]; simpl in *.
  - rewrite <- IH, andb_true_r. now destruct (isspace c).
  - rewrite <- IH. now rewrite andb_false_r.
Qed.

Lemma lstrip_all_space (s : string) : all_space (lstrip s) = all_space s.
Proof.
  induction s as [|c s IH]; simpl; [reflexivity|].
  destruct (isspace c) eqn:E; simpl; [exact IH | now rewrite E].
Qed.

(** [strip] leaves nothing exactly of the texts made of whitespace
    (the empty text among them). *)
Lemma strip_empty (s : string) : is_empty (strip s) = all_space s.
Proof. unfold strip. now rewrite rstrip_empty, lstrip_all_space. Qed.

Lemma lstrip_no_leading_space (s : string) : no_leading_space (lstrip s).
Proof.
  induction s as [|c s IH]; simpl.
  - intros x t E; discriminate.
  - destruct (isspace c) eqn:E; [exact IH|].
    intros x t Ex. injection Ex as -> _. exact E.
Qed.

Lemma rstrip_head (s : string) (x : ascii) (t : string) :
  rstrip s = String x t -> exists t', s = String x t'.
Proof.
  destruct s as [|c s]; simpl; [discriminate|].
  destruct (rstrip s); [destruct (isspace c); [discriminate|] |];
    intros E; injection E as -> _; eauto.
Qed.

Lemma rstrip_no_leading_space (s : string) :
  no_leading_space s -> no_leading_space (rstrip s).
Proof.
  intros H x t E. destruct (rstrip_head _ E) as [t' ->]. now apply (H x t').
Qed.

Lemma snoc_inv (a b : string) (x y : ascii) :
  a ++ String x "" = b ++ String y "" -> a = b /\ x = y.
Proof.
  revert b; induction a as [|c a IH]; intros [|d b]; simpl; intros E.
  - injection E as ->. now split.
  - injection E as -> E. destruct b; discriminate.
  - injection E as -> E. destruct a; discriminate.
  - injection E as -> E. destruct (IH _ E) as [-> ->]. now split.
Qed.

Lemma rstrip_no_trailing_space (s : string) : no_trailing_space (rstrip s).
Proof.
  induction s as [|c s IH]; simpl.
  - intros x t E. destruct t; discriminate.
  - destruct (rstrip s) as [|y u] eqn:R.
    + destruct (isspace c) eqn:E.
      * intros x t Ex. destruct t; discriminate.
      * intros x t Ex. destruct t as [|z t]; simpl in Ex.
        -- injection Ex as ->. exact E.
        -- injection Ex as _ Ex. destruct t; discriminate.
    + intros x t Ex. destruct t as [|z t]; simpl in Ex.
      * discriminate.
      * injection Ex as _ Ex. exact (IH x t Ex).
Qed.

(** What [strip] returns is trimmed. *)
Lemma strip_is_trimmed (s : string) : trimmed (strip s).
Proof.
  split; unfold strip.
  - apply rstrip_no_leading_space, lstrip_no_leading_space.
  - apply rstrip_no_trailing_space.
Qed.

Lemma strip_idempotent (s : string) : strip (strip s) = strip s.
Proof. apply strip_trimmed, strip_is_trimmed. Qed.

End StringFacts.

(* ------------------------------------------------------------------ *)
(** * Facts about traces *)

Lemma calls_app (a b : list effect) : calls (a ++ b) = (calls a ++ calls b)%list.
Proof. apply filter_app. Qed.

Lemma calls_log (lvl : log_level) (msg : string) (t : list effect) :
  calls (Log lvl msg :: t) = calls t.
Proof. reflexivity. Qed.

Lemma in_calls (x : effect) (t : list effect) :
  is_call x = true -> In x t -> In x (calls t).
Proof. intros H Hin. apply filter_In. now split. Qed.

(* ------------------------------------------------------------------ *)
(** * The steps of the pipeline *)

Section Pipeline.

Variable env : Env.

Lemma normalize_not_empty (g : string) : normalize g <> "".
Proof.
  unfold normalize. destruct (is_empty (strip g)) eqn:E.
  - discriminate.
  - now apply is_empty_false.
Qed.

Lemma generated_blog_not_empty (prompt : string) :
  generated_blog env prompt <> "".
Proof.
  unfold generated_blog.
  destruct (inference_outcome env prompt) as [response_body|e]; [|discriminate].
  destruct (json_loads env response_body) as [v|msg|r];
    [|discriminate|discriminate].
  destruct v as [ | | | | | |d]; try discriminate.
  destruct (dict_get d "generation" (VStr "")); try discriminate.
  apply normalize_not_empty.
Qed.

(** [content_generation] raises exactly when the prompt cannot be built,
    and then before anything is logged or called. *)
Lemma content_generation_raise (t : string) (l c : pyval) (e : exn) :
  full_prompt env t l c = Raise e ->
  content_generation env t l c = (Raise e, []).
Proof. intros H. unfold content_generation. now rewrite H. Qed.

(** Once the prompt is built, [content_generation] returns a dict whose
    only entry is the generated text, after one call to the model. *)
Lemma content_generation_return (t : string) (l c : pyval) (p : string) :
  full_prompt env t l c = Return p ->
  exists tr,
    content_generation env t l c
    = (Return (VDict [("blog", VStr (generated_blog env p))]), tr)
    /\ calls tr
       = [InvokeModel bedrock_config (json_dumps env (request_payload p))
                      MODEL_ID].
Proof.
  intros H. unfold content_generation, generated_blog, inference_outcome.
  rewrite H. cbn -[append].
  destruct (invoke_model env bedrock_config
              (json_dumps env (request_payload p)) MODEL_ID)
    as [response_body|e]; cbn -[append].
  - destruct (json_loads env response_body) as [v|msg|r]; cbn -[append].
    + destruct v as [ | | | | | |d]; cbn -[append];
        try (eexists; split; reflexivity).
      destruct (dict_get d "generation" (VStr "")) as [ | | | |s| | ];
        cbn -[append]; try (eexists; split; reflexivity).
      unfold normalize.
      destruct (is_empty (strip s)); cbn -[append];
        eexists; split; reflexivity.
    + eexists; split; reflexivity.
    + eexists; split; reflexivity.
  - eexists; split; reflexivity.
Qed.

Lemma full_prompt_str (t l : string) (c : pyval) :
  full_prompt env t (VStr l) c = Return (prompt_of env t l c).
Proof. reflexivity. Qed.

Lemma full_prompt_not_str (t : string) (l c : pyval) :
  is_str l = false ->
  full_prompt env t l c = Raise (no_attribute l "lower").
Proof. destruct l; simpl; intros H; try discriminate; reflexivity. Qed.

(** [s3_uploader] never raises: it sends one request and reports how
    that went. *)
Lemma s3_uploader_blog (b : string) :
  exists tr,
    s3_uploader env (VDict [("blog", VStr b)])
                "blogcreatorbucket" "generated-content"
    = (Return (match put_object env (upload_request env b) with
               | Return _ => true
               | Raise _ => false
               end), tr)
    /\ calls tr = [PutObject (upload_request env b)].
Proof.
  unfold s3_uploader, upload_request. cbn -[append strftime_Ymd_HMS].
  destruct (put_object env _) as [u|e]; cbn -[append strftime_Ymd_HMS];
    eexists; split; reflexivity.
Qed.

(** ** [validate_input] *)

Lemma validate_input_raise_inv (event : pyval) (e : exn) :
  validate_input env event = Raise e -> class_of e = ValueError.
Proof.
  unfold validate_input, otry.
  destruct (body <-- request_body env event;; extract_fields body) as [r|e0];
    [discriminate|].
  destruct (is_JSONDecodeError e0); intros H; injection H as <-; reflexivity.
Qed.

Lemma extract_fields_return (body : pyval) (t : string) (l c : pyval) :
  extract_fields body = Return (t, l, c) <->
  exists d s,
    body = VDict d
    /\ assoc "blogTopic" d = Some (VStr s)
    /\ strip s <> "" /\ t = strip s
    /\ l = dict_get d "level" (VStr "Intermediate")
    /\ c = dict_get d "context" (VStr "").
Proof.
  split.
  - destruct body as [ | | | | | |d]; try discriminate.
    unfold extract_fields, py_get, dict_get. cbn -[strip].
    destruct (assoc "blogTopic" d) as [v|] eqn:Ht; cbn -[strip].
    + destruct v as [ | | | |s| | ]; try discriminate. cbn -[strip].
      destruct (is_empty (strip s)) eqn:E; [discriminate|].
      intros H; injection H as <- <- <-.
      exists d, s. rewrite Ht. apply is_empty_false in E. now repeat split.
    + discriminate.
  - intros (d & s & -> & Ht & Hs & -> & -> & ->).
    unfold extract_fields, py_get, dict_get. cbn -[strip].
    rewrite Ht. cbn -[strip].
    apply is_empty_false in Hs. now rewrite Hs.
Qed.

Lemma validate_input_return (event : pyval) (t : string) (l c : pyval) :
  validate_input env event = Return (t, l, c) <->
  exists body,
    request_body env event = Return body
    /\ extract_fields body = Return (t, l, c).
Proof.
  unfold validate_input, otry, obind.
  destruct (request_body env event) as [body|e].
  - destruct (extract_fields body) as [r|e] eqn:E.
    + split.
      * intros H; injection H as ->. now exists body.
      * intros (b & Hb & Hr). injection Hb as <-. congruence.
    + split.
      * destruct (is_JSONDecodeError e); discriminate.
      * intros (b & Hb & Hr). injection Hb as <-. congruence.
  - split.
    + destruct (is_JSONDecodeError e); discriminate.
    + intros (b & Hb & _). discriminate.
Qed.


Lemma outcome_cases {A} (m : outcome A) : (exists r, m = Return r) \/ raises m.
Proof. destruct m as [a|e]; [left; now exists a | right; now exists e]. Qed.


End Pipeline.

(* ------------------------------------------------------------------ *)
(** * The three ways through [lambda_handler] *)

Section Handler.

Variable env : Env.
Variable event : pyval.
Variable context : LambdaContext.

(** Validation fails: a 400 response carrying the message, and no call. *)
Lemma handler_invalid (e : exn) :
  validate_input env event = Raise e ->
  exists tr,
    lambda_handler env event context
    = (Return (format_response env (validation_error_body (str_of e)) 400%Z), tr)
    /\ calls tr = [].
Proof.
  intros H. pose proof (validate_input_raise_inv _ _ H) as Hc.
  unfold lambda_handler. rewrite H. cbn -[append].
  unfold is_ValueError. rewrite Hc. cbn -[append].
  eexists; split; reflexivity.
Qed.

(** The level is not a str: the prompt cannot be built, and the handler
    answers 500 before any call. *)
Lemma handler_level_not_str (t : string) (l c : pyval) :
  validate_input env event = Return (t, l, c) ->
  is_str l = false ->
  exists tr,
    lambda_handler env event context
    = (Return (format_response env
                 (internal_error_body (str_of (no_attribute l "lower")))
                 500%Z), tr)
    /\ calls tr = [].
Proof.
  intros H Hl. unfold lambda_handler. rewrite H.
  cbn -[append content_generation].
  rewrite (content_generation_raise _ _ _ _ (full_prompt_not_str env t l c Hl)).
  cbn -[append]. eexists; split; reflexivity.
Qed.

(** The request is valid and its level is a str: a 200 response with the
    generated text, after the inference call and the storage write. *)
Lemma handler_valid (t l : string) (c : pyval) :
  validate_input env event = Return (t, VStr l, c) ->
  let blog := generated_blog env (prompt_of env t l c) in
  exists tr,
    lambda_handler env event context
    = (Return (format_response env
                 (blog_body blog (upload_message env blog)) 200%Z), tr)
    /\ calls tr
       = [InvokeModel bedrock_config
            (json_dumps env (request_payload (prompt_of env t l c))) MODEL_ID;
          PutObject (upload_request env blog)].
Proof.
  intros H blog. unfold lambda_handler. rewrite H.
  cbn -[append content_generation s3_uploader].
  destruct (content_generation_return env t (VStr l) c (full_prompt_str env t l c))
    as (tr1 & -> & Hc1).
  fold blog. cbn -[append s3_uploader].
  destruct (s3_uploader_blog env blog) as (tr2 & -> & Hc2).
  unfold upload_message.
  destruct (put_object env (upload_request env blog)) as [u|e];
    cbn -[append]; eexists; (split; [reflexivity|]);
    rewrite calls_log, calls_app, calls_log, calls_app, Hc1, Hc2; reflexivity.
Qed.

End Handler.

(* ------------------------------------------------------------------ *)
(** * The generated text *)

Lemma generated_blog_unusable (env : Env) (p : string) :
  inference_unusable env p -> generated_blog env p = FALLBACK.
Proof.
  unfold generated_blog.
  intros [[e ->] | (rb & d & -> & -> & H)]; [reflexivity|].
  unfold dict_get. destruct H as [-> | (g & -> & Hg)].
  - reflexivity.
  - unfold normalize. now rewrite strip_empty, Hg.
Qed.

Lemma generated_blog_text (env : Env) (p rb : string)
      (d : list (string * pyval)) (g : string) :
  inference_outcome env p = Return rb ->
  json_loads env rb = Loaded (VDict d) ->
  assoc "generation" d = Some (VStr g) ->
  generated_blog env p = normalize g.
Proof.
  intros H1 H2 H3. unfold generated_blog, dict_get. now rewrite H1, H2, H3.
Qed.

(* ------------------------------------------------------------------ *)
(** * The response to a valid request *)

(** C1. For every request whose body yields a non-empty blogTopic after
    trimming, with a str level (the context may be any value), the handler
    returns a response with statusCode 200 whose body is the serialized
    object of a 'blog' and a 'message', the blog being a non-empty str,
    whatever the inference service and the storage service answer. *)
Theorem valid_request_gets_blog
        (env : Env) (event : pyval) (context : LambdaContext)
        (t l : string) (c : pyval) :
  validate_input env event = Return (t, VStr l, c) ->
  exists response blog message,
    fst (lambda_handler env event context) = Return response
    /\ statusCode response = 200%Z
    /\ body response = json_dumps env (blog_body blog message)
    /\ blog <> "".
Proof.
  intros H. destruct (handler_valid env event context H) as (tr & -> & _).
  eexists _, _, _. repeat split. apply generated_blog_not_empty.
Qed.

Lemma valid_request_gets_blog_witness :
  exists response blog message,
    fst (lambda_handler Sample.answering Sample.request lambda_context)
    = Return response
    /\ statusCode response = 200%Z
    /\ body response = json_dumps Sample.answering (blog_body blog message)
    /\ blog <> "".
Proof.
  apply (@valid_request_gets_blog Sample.answering Sample.request
           lambda_context "rust ownership" "Advanced" (VStr "")).
  reflexivity.
Defined.

(** C2. When the inference call raises (a timeout is raised as an
    exception), or answers an object whose 'generation' field is absent,
    empty or made of whitespace, the 'blog' of the response is exactly
    the fallback text and the statusCode is still 200. *)
Theorem unusable_inference_gives_fallback
        (env : Env) (event : pyval) (context : LambdaContext)
        (t l : string) (c : pyval) :
  validate_input env event = Return (t, VStr l, c) ->
  inference_unusable env (prompt_of env t l c) ->
  exists response message,
    fst (lambda_handler env event context) = Return response
    /\ statusCode response = 200%Z
    /\ body response
       = json_dumps env
           (blog_body "Failed to generate content. Please try again." message).
Proof.
  intros H Hu. destruct (handler_valid env event context H) as (tr & -> & _).
  rewrite (generated_blog_unusable Hu). eexists _, _. repeat split.
Qed.

Lemma unusable_inference_gives_fallback_witness :
  exists response message,
    fst (lambda_handler Sample.failing Sample.request lambda_context)
    = Return response
    /\ statusCode response = 200%Z
    /\ body response
       = json_dumps Sample.failing
           (blog_body "Failed to generate content. Please try again." message).
Proof.
  apply (@unusable_inference_gives_fallback Sample.failing Sample.request
           lambda_context "rust ownership" "Advanced" (VStr "")).
  - reflexivity.
  - left. eexists. reflexivity.
Defined.

(** C3. For a valid request, put the same surroundings beside a storage
    service that accepts the write and beside one that fails it
    ([s3_uploader] then returns false): both responses have statusCode 200
    and the same 'blog'; only the 'message' differs. *)
Theorem storage_outcome_only_changes_message
        (env : Env) (event : pyval) (context : LambdaContext)
        (t l : string) (c : pyval)
        (accepts fails : PutObjectRequest -> outcome unit) :
  validate_input env event = Return (t, VStr l, c) ->
  let blog := generated_blog env (prompt_of env t l c) in
  (exists u, accepts (upload_request env blog) = Return u) ->
  raises (fails (upload_request env blog)) ->
  fst (lambda_handler (with_put_object env accepts) event context)
  = Return (format_response env (blog_body blog UPLOADED) 200%Z)
  /\ fst (lambda_handler (with_put_object env fails) event context)
     = Return (format_response env (blog_body blog NOT_UPLOADED) 200%Z)
  /\ NOT_UPLOADED <> UPLOADED.
Proof.
  intros H blog [u Hu] [e He]. repeat split.
  - destruct (handler_valid (with_put_object env accepts) event context
                (t := t) (l := l) (c := c) H) as (tr & -> & _).
    unfold upload_message.
    change (put_object (with_put_object env accepts)
              (upload_request (with_put_object env accepts)
                 (generated_blog (with_put_object env accepts)
                    (prompt_of (with_put_object env accepts) t l c))))
      with (accepts (upload_request env blog)).
    rewrite Hu. reflexivity.
  - destruct (handler_valid (with_put_object env fails) event context
                (t := t) (l := l) (c := c) H) as (tr & -> & _).
    unfold upload_message.
    change (put_object (with_put_object env fails)
              (upload_request (with_put_object env fails)
                 (generated_blog (with_put_object env fails)
                    (prompt_of (with_put_object env fails) t l c))))
      with (fails (upload_request env blog)).
    rewrite He. reflexivity.
  - discriminate.
Qed.

Lemma storage_outcome_only_changes_message_witness :
  let blog := "Ownership moves values." in
  fst (lambda_handler
         (with_put_object Sample.answering (put_object Sample.answering))
         Sample.request lambda_context)
  = Return (format_response Sample.answering (blog_body blog UPLOADED) 200%Z)
  /\ fst (lambda_handler
            (with_put_object Sample.answering (put_object Sample.failing))
            Sample.request lambda_context)
     = Return (format_response Sample.answering
                 (blog_body blog NOT_UPLOADED) 200%Z)
  /\ NOT_UPLOADED <> UPLOADED.
Proof.
  apply (@storage_outcome_only_changes_message Sample.answering Sample.request
           lambda_context "rust ownership" "Advanced" (VStr "")
           (put_object Sample.answering) (put_object Sample.failing)).
  - reflexivity.
  - exists tt. reflexivity.
  - eexists. reflexivity.
Defined.

(* ------------------------------------------------------------------ *)
(** * Validation *)

Lemma invalid_json_body_raises (env : Env) (event : pyval) :
  invalid_json_body env event ->
  validate_input env event = Raise (Exn ValueError "Invalid JSON payload")
  /\ blog_topic_of env event = None.
Proof.
  intros (s & msg & Hb & Hl). unfold event_body in Hb.
  destruct event as [ | | | | | |e]; try discriminate.
  unfold validate_input, blog_topic_of, request_body, py_get, dict_get,
    py_getitem.
  rewrite Hb. cbn. rewrite Hl. split; reflexivity.
Qed.





(** What [extract_fields] raises is never a JSON decoding error. *)
Lemma extract_fields_raise (body : pyval) (e : exn) :
  extract_fields body = Raise e -> is_JSONDecodeError e = false.
Proof.
  destruct body as [ | | | | | |d];
    try (intros H; injection H as <-; reflexivity).
  unfold extract_fields, py_get. cbn -[strip].
  destruct (dict_get d "blogTopic" (VStr "")) as [ | | | |s| | ];
    try (intros H; injection H as <-; reflexivity).
  cbn -[strip]. destruct (is_empty (strip s)); [|discriminate].
  intros H; injection H as <-; reflexivity.
Qed.

(** C10. Every exception raised while the fields are extracted from the
    request body (a blogTopic that is not a str raises an AttributeError
    on [strip], for one) becomes a validation error with the same
    message, and the handler answers 400 with that message under 'error':
    never 500. *)
Theorem extraction_errors_become_400
        (env : Env) (event : pyval) (context : LambdaContext)
        (request : pyval) (e : exn) :
  request_body env event = Return request ->
  extract_fields request = Raise e ->
  validate_input env event = Raise (Exn ValueError (str_of e))
  /\ exists response,
       fst (lambda_handler env event context) = Return response
       /\ statusCode response = 400%Z
       /\ body response
          = json_dumps env (VDict [("error", VStr (str_of e));
                                   ("success", VBool false)]).
Proof.
  intros Hb He.
  assert (Hv : validate_input env event = Raise (Exn ValueError (str_of e))).
  { unfold validate_input, otry, obind. rewrite Hb, He.
    now rewrite (extract_fields_raise _ He). }
  split; [exact Hv|].
  destruct (handler_invalid env event context Hv) as (tr & -> & _).
  eexists. repeat split.
Qed.

Lemma extraction_errors_become_400_witness :
  validate_input Sample.answering Sample.numeric_topic
  = Raise (Exn ValueError "'int' object has no attribute 'strip'")
  /\ exists response,
       fst (lambda_handler Sample.answering Sample.numeric_topic lambda_context)
       = Return response
       /\ statusCode response = 400%Z
       /\ body response
          = json_dumps Sample.answering
              (VDict [("error", VStr "'int' object has no attribute 'strip'");
                      ("success", VBool false)]).
Proof.
  apply (@extraction_errors_become_400 Sample.answering Sample.numeric_topic
           lambda_context (VDict [("blogTopic", VInt 5)])
           (no_attribute (VInt 5) "strip")).
  - reflexivity.
  - reflexivity.
Defined.

(** C9. A level that is not a str, beside a valid blogTopic, makes the
    handler answer 500 with the generic error: [lower] is called on the
    level while the prompt is built, before the block that absorbs the
    errors of the inference call, so no call is made at all. *)
Theorem level_not_str_gives_500
        (env : Env) (event : pyval) (context : LambdaContext)
        (t : string) (l c : pyval) :
  validate_input env event = Return (t, l, c) ->
  is_str l = false ->
  content_generation env t l c
  = (Raise (Exn AttributeError
              ("'" ++ type_name l ++ "' object has no attribute 'lower'")), [])
  /\ calls (snd (lambda_handler env event context)) = []
  /\ exists response,
       fst (lambda_handler env event context) = Return response
       /\ statusCode response = 500%Z
       /\ body response
          = json_dumps env
              (VDict [("error", VStr "Internal server error");
                      ("details",
                       VStr ("'" ++ type_name l
                             ++ "' object has no attribute 'lower'"));
                      ("success", VBool false)]).
Proof.
  intros H Hl. split; [|split].
  - exact (content_generation_raise _ _ _ _ (full_prompt_not_str env t l c Hl)).
  - destruct (handler_level_not_str env event context H Hl) as (tr & -> & Hc).
    exact Hc.
  - destruct (handler_level_not_str env event context H Hl) as (tr & -> & _).
    eexists. repeat split.
Qed.

Lemma level_not_str_gives_500_witness :
  content_generation Sample.answering "rust ownership" (VInt 3) (VStr "")
  = (Raise (Exn AttributeError "'int' object has no attribute 'lower'"), [])
  /\ calls (snd (lambda_handler Sample.answering Sample.numeric_level
                   lambda_context)) = []
  /\ exists response,
       fst (lambda_handler Sample.answering Sample.numeric_level lambda_context)
       = Return response
       /\ statusCode response = 500%Z
       /\ body response
          = json_dumps Sample.answering
              (VDict [("error", VStr "Internal server error");
                      ("details", VStr "'int' object has no attribute 'lower'");
                      ("success", VBool false)]).
Proof.
  apply (@level_not_str_gives_500 Sample.answering Sample.numeric_level
           lambda_context "rust ownership" (VInt 3) (VStr "")).
  - reflexivity.
  - reflexivity.
Defined.

(* ------------------------------------------------------------------ *)
(** * Normalization *)

Lemma trimmed_of_strip (s : string) : strip s = s -> trimmed s.
Proof. intros H. rewrite <- H. apply strip_is_trimmed. Qed.

(** Normalizing twice is normalizing once, for every text: what the step
    returns is trimmed and not empty, the fallback text included. *)
Lemma normalize_idempotent (s : string) : normalize (normalize s) = normalize s.
Proof.
  unfold normalize at 2 3. destruct (is_empty (strip s)) eqn:E.
  - reflexivity.
  - unfold normalize. now rewrite strip_idempotent, E.
Qed.

(** C5. A text that is already trimmed and not empty goes through the
    normalization step (strip, then the fallback for an empty text)
    unchanged; so [content_generation] returns, as it is, a generation
    that the model gives in that form. *)
Theorem normalize_keeps_normalized (text : string) :
  trimmed text -> text <> "" ->
  normalize text = text
  /\ forall env t l c response_body d,
       inference_outcome env (prompt_of env t l c) = Return response_body ->
       json_loads env response_body = Loaded (VDict d) ->
       assoc "generation" d = Some (VStr text) ->
       fst (content_generation env t (VStr l) c)
       = Return (VDict [("blog", VStr text)]).
Proof.
  intros Ht Hne.
  assert (Hn : normalize text = text).
  { unfold normalize. rewrite (strip_trimmed Ht).
    apply is_empty_false in Hne. now rewrite Hne. }
  split; [exact Hn|].
  intros env t l c rb d H1 H2 H3.
  destruct (content_generation_return env t (VStr l) c (full_prompt_str env t l c))
    as (tr & -> & _).
  cbn [fst]. now rewrite (generated_blog_text _ _ H1 H2 H3), Hn.
Qed.

Lemma normalize_keeps_normalized_witness :
  normalize "Ownership moves values." = "Ownership moves values."
  /\ forall env t l c response_body d,
       inference_outcome env (prompt_of env t l c) = Return response_body ->
       json_loads env response_body = Loaded (VDict d) ->
       assoc "generation" d = Some (VStr "Ownership moves values.") ->
       fst (content_generation env t (VStr l) c)
       = Return (VDict [("blog", VStr "Ownership moves values.")]).
Proof.
  apply (@normalize_keeps_normalized "Ownership moves values.").
  - apply trimmed_of_strip. reflexivity.
  - discriminate.
Defined.

(* ------------------------------------------------------------------ *)
(** * Timestamps *)

Lemma digit_of_digit (n : nat) : digit_of (digit n) = Some (n mod 10).
Proof.
  unfold digit_of, digit.
  pose proof (Nat.mod_upper_bound n 10 ltac:(discriminate)) as Hlt.
  rewrite nat_ascii_embedding by lia.
  replace (48 <=? 48 + n mod 10) with true by (symmetry; apply Nat.leb_le; lia).
  replace (48 + n mod 10 <=? 57) with true by (symmetry; apply Nat.leb_le; lia).
  cbn [andb]. f_equal. lia.
Qed.

Lemma read_two_digits (n : nat) (rest : string) :
  n < 100 -> read_number 2 0 (two_digits n ++ rest) = Some (n, rest).
Proof.
  intros Hn. unfold two_digits. cbn [append read_number].
  rewrite !digit_of_digit. do 2 f_equal.
  pose proof (Nat.div_mod_eq n 10).
  assert (n / 10 < 10) by (apply Nat.Div0.div_lt_upper_bound; lia).
  rewrite (Nat.mod_small (n / 10) 10) by assumption. lia.
Qed.

Lemma read_four_digits (n : nat) (rest : string) :
  n < 10 * 1000 -> read_number 4 0 (four_digits n ++ rest) = Some (n, rest).
Proof.
  intros Hn. unfold four_digits, two_digits. cbn [append read_number].
  rewrite !digit_of_digit. do 2 f_equal.
  pose proof (Nat.div_mod_eq n 10) as H1.
  pose proof (Nat.div_mod_eq (n / 10) 10) as H2.
  pose proof (Nat.div_mod_eq (n / 10 / 10) 10) as H3.
  assert (E100 : n / 100 = n / 10 / 10) by (now rewrite Nat.Div0.div_div).
  assert (E1000 : n / 1000 = n / 10 / 10 / 10) by (now rewrite !Nat.Div0.div_div).
  rewrite E100, E1000.
  assert (n / 10 / 10 / 10 < 10).
  { rewrite <- E1000. apply Nat.Div0.div_lt_upper_bound. lia. }
  rewrite (Nat.mod_small (n / 10 / 10 / 10) 10) by assumption. lia.
Qed.

(** The timestamp reads back as the instant it was made from: it is the
    text YYYYMMDD-HHmmss of that instant, and fifteen characters long. *)
Lemma strftime_reads_back (t : datetime) :
  calendar_instant t ->
  parse_Ymd_HMS (strftime_Ymd_HMS t) = Some t
  /\ String.length (strftime_Ymd_HMS t) = 15.
Proof.
  destruct t as [Y m d H Mi S]. unfold calendar_instant. cbn [year month day hour minute second].
  intros (HY & Hm & Hd & HH & HMi & HS). split; [|reflexivity].
  unfold parse_Ymd_HMS, strftime_Ymd_HMS.
  cbn [year month day hour minute second].
  rewrite read_four_digits by lia.
  rewrite read_two_digits by lia.
  rewrite read_two_digits by lia.
  cbn [append expect_dash Ascii.eqb Bool.eqb].
  rewrite read_two_digits by lia.
  rewrite read_two_digits by lia.
  rewrite <- (append_empty_r (two_digits S)).
  rewrite read_two_digits by lia.
  reflexivity.
Qed.

(* ------------------------------------------------------------------ *)
(** * The calls of the handler *)

(** The handler calls nothing, or it calls the model once and then the
    storage once, with the requests written in the code. *)
Lemma handler_calls (env : Env) (event : pyval) (context : LambdaContext) :
  calls (snd (lambda_handler env event context)) = []
  \/ exists t l c,
       validate_input env event = Return (t, VStr l, c)
       /\ calls (snd (lambda_handler env event context))
          = [InvokeModel bedrock_config
               (json_dumps env (request_payload (prompt_of env t l c))) MODEL_ID;
             PutObject
               (upload_request env (generated_blog env (prompt_of env t l c)))].
Proof.
  destruct (validate_input env event) as [[[t l] c]|e] eqn:H.
  - destruct (is_str l) eqn:Hl.
    + destruct l as [ | | | |l| | ]; try discriminate.
      right. exists t, l, c. split; [reflexivity|].
      destruct (handler_valid env event context H) as (tr & -> & Hc). exact Hc.
    + left.
      destruct (handler_level_not_str env event context H Hl) as (tr & -> & Hc).
      exact Hc.
  - left. destruct (handler_invalid env event context H) as (tr & -> & Hc).
    exact Hc.
Qed.

(** C6. A storage write of the handler, made at the instant [now env],
    has for key exactly generated-content/ followed by that instant
    written as YYYYMMDD-HHmmss (a text that reads back as the instant) and
    by .txt, and has the content type text/plain. *)
Theorem storage_key_format
        (env : Env) (event : pyval) (context : LambdaContext)
        (req : PutObjectRequest) :
  In (PutObject req) (snd (lambda_handler env event context)) ->
  calendar_instant (now env) ->
  Key req = "generated-content/" ++ strftime_Ymd_HMS (now env) ++ ".txt"
  /\ parse_Ymd_HMS (strftime_Ymd_HMS (now env)) = Some (now env)
  /\ String.length (strftime_Ymd_HMS (now env)) = 15
  /\ ContentType req = "text/plain".
Proof.
  intros Hin Hcal. apply (in_calls (PutObject req)) in Hin; [|reflexivity].
  destruct (strftime_reads_back Hcal) as [Hparse Hlen].
  destruct (handler_calls env event context) as [Hc | (t & l & c & _ & Hc)];
    rewrite Hc in Hin.
  - contradiction.
  - destruct Hin as [Hin | [Hin | []]]; [discriminate|].
    injection Hin as <-. repeat split; assumption.
Qed.

Lemma storage_key_format_witness :
  let req := upload_request Sample.answering "Ownership moves values." in
  Key req = "generated-content/20240517-090307.txt"
  /\ parse_Ymd_HMS "20240517-090307" = Some Sample.instant
  /\ String.length "20240517-090307" = 15
  /\ ContentType req = "text/plain".
Proof.
  apply (@storage_key_format Sample.answering Sample.request lambda_context
           (upload_request Sample.answering "Ownership moves values.")).
  - vm_compute. do 5 right. left. reflexivity.
  - unfold calendar_instant. simpl. lia.
Defined.

(* ------------------------------------------------------------------ *)
(** * The configuration of the inference call *)

(** What the claim C8 adds to the values: that the retry and timeout
    parameters are exposed as configuration. No surroundings of the
    handler change them. *)
Lemma retry_timeout_not_configurable : ~ retry_timeout_configurable.
Proof.
  intros (env1 & ev1 & ctx1 & env2 & ev2 & ctx2
          & cfg1 & b1 & id1 & cfg2 & b2 & id2 & H1 & H2 & Hd).
  apply (in_calls (InvokeModel cfg1 b1 id1)) in H1; [|reflexivity].
  apply (in_calls (InvokeModel cfg2 b2 id2)) in H2; [|reflexivity].
  destruct (handler_calls env1 ev1 ctx1) as [Hc | (t & l & c & _ & Hc)];
    rewrite Hc in H1; [contradiction|].
  destruct (handler_calls env2 ev2 ctx2) as [Hc' | (t' & l' & c' & _ & Hc')];
    rewrite Hc' in H2; [contradiction|].
  destruct H1 as [H1 | [H1 | []]]; [|discriminate].
  destruct H2 as [H2 | [H2 | []]]; [|discriminate].
  injection H1 as <- _ _. injection H2 as <- _ _.
  destruct Hd as [Hd | Hd]; apply Hd; reflexivity.
Qed.

(** C8, amended. Every inference call of the handler carries the payload
    fields max_gen_len 512, temperature 0.5 and top_p 0.9 beside the
    prompt, and is made by a client with a 300-second read timeout and at
    most 3 attempts; these values are the ones written in
    [content_generation], the same for every request and environment. *)
Theorem inference_call_configuration
        (env : Env) (event : pyval) (context : LambdaContext)
        (cfg : ClientConfig) (payload modelId : string) :
  In (InvokeModel cfg payload modelId) (snd (lambda_handler env event context)) ->
  read_timeout cfg = 300%Z
  /\ max_attempts cfg = 3%Z
  /\ exists prompt,
       payload = json_dumps env
                   (VDict [("prompt", VStr prompt);
                           ("max_gen_len", VInt 512);
                           ("temperature", VFloat (5 # 10));
                           ("top_p", VFloat (9 # 10))]).
Proof.
  intros Hin.
  apply (in_calls (InvokeModel cfg payload modelId)) in Hin; [|reflexivity].
  destruct (handler_calls env event context) as [Hc | (t & l & c & _ & Hc)];
    rewrite Hc in Hin; [contradiction|].
  destruct Hin as [Hin | [Hin | []]]; [|discriminate].
  injection Hin as <- <- <-. repeat split.
  exists (prompt_of env t l c). reflexivity.
Qed.

Lemma inference_call_configuration_witness :
  read_timeout bedrock_config = 300%Z
  /\ max_attempts bedrock_config = 3%Z
  /\ exists prompt,
       json_dumps Sample.answering
         (request_payload
            (prompt_of Sample.answering "rust ownership" "Advanced" (VStr "")))
       = json_dumps Sample.answering
           (VDict [("prompt", VStr prompt);
                   ("max_gen_len", VInt 512);
                   ("temperature", VFloat (5 # 10));
                   ("top_p", VFloat (9 # 10))]).
Proof.
  apply (@inference_call_configuration Sample.answering Sample.request
           lambda_context bedrock_config
           (json_dumps Sample.answering
              (request_payload
                 (prompt_of Sample.answering "rust ownership" "Advanced"
                            (VStr ""))))
           MODEL_ID).
  vm_compute. do 2 right. left. reflexivity.
Defined.

(* ------------------------------------------------------------------ *)
(** * The prompt *)

Lemma lower_char_uppercase (c : ascii) :
  lower_char c
  = if is_uppercase c then ascii_of_nat (nat_of_ascii c + 32) else c.
Proof. reflexivity. Qed.

Lemma lower_char_not_uppercase (c : ascii) : is_uppercase (lower_char c) = false.
Proof.
  destruct c as [[|] [|] [|] [|] [|] [|] [|] [|]]; reflexivity.
Qed.

Lemma lower_length (s : string) : String.length (lower s) = String.length s.
Proof. induction s as [|c s IH]; simpl; [reflexivity | now rewrite IH]. Qed.

Lemma lower_get (s : string) (i : nat) (c : ascii) :
  String.get i s = Some c -> String.get i (lower s) = Some (lower_char c).
Proof.
  revert i; induction s as [|x s IH]; intros [|i]; simpl; try discriminate.
  - intros H; injection H as ->. reflexivity.
  - apply IH.
Qed.

Lemma lower_get_inv (s : string) (i : nat) (c : ascii) :
  String.get i (lower s) = Some c ->
  exists x, String.get i s = Some x /\ c = lower_char x.
Proof.
  revert i; induction s as [|x s IH]; intros [|i]; simpl; try discriminate.
  - intros H; injection H as <-. now exists x.
  - apply IH.
Qed.

Lemma lower_lowercase_of (s : string) : lowercase_of s (lower s).
Proof.
  split; [apply lower_length|].
  intros i c H. rewrite <- lower_char_uppercase. now apply lower_get.
Qed.

Lemma lower_no_uppercase (s : string) : no_uppercase (lower s).
Proof.
  intros i c H. destruct (lower_get_inv _ _ H) as (x & _ & ->).
  apply lower_char_not_uppercase.
Qed.

(** C7. The prompt is a function of the topic, the level and the context
    alone: every environment gives the same text. The text holds the
    instruction sentence written for the lowercased level, asking for a
    200-300 word post, and after it the rule against comments,
    disclaimers and follow-up dialogue and for plain text, and then the
    topic, the level and the context as they are. The lowercased level
    is the level with each uppercase letter replaced by its lowercase
    form and nothing else changed, so that it holds no uppercase letter:
    Advanced is written advanced in the sentence. *)
Theorem prompt_structure (topic level context : string) :
  exists prompt,
    (forall env,
        full_prompt env topic (VStr level) (VStr context) = Return prompt)
    /\ (exists before between after,
          prompt = before ++ instruction_sentence (lower level) ++ between
                   ++ field_listing topic level context ++ after
          /\ occurs_in
               "Do NOT add any comments, disclaimers, or follow-up dialogue."
               between
          /\ occurs_in "Always return the blog content as plain text." between)
    /\ occurs_in "200-300 word" (instruction_sentence (lower level))
    /\ lowercase_of level (lower level)
    /\ no_uppercase (lower level)
    /\ lower "Advanced" = "advanced"
    /\ instruction_sentence (lower "Advanced")
       = "Generate a 200-300 word informative blog post on the following topic for a advanced audience.".
Proof.
  set (before :=
         "You are a helpful AI assistant. Follow these instructions exactly:"
         ++ nl ++ "    " ++ nl ++ "    1.").
  set (between :=
         nl ++ "    3.Do NOT add any comments, disclaimers, or follow-up dialogue. Always return the blog content as plain text."
         ++ nl ++ nl ++ "    ").
  set (after := nl ++ "    ").
  exists (before ++ instruction_sentence (lower level) ++ between
          ++ field_listing topic level context ++ after).
  split; [|split; [|split; [|split; [|split; [|split]]]]].
  - intros env. unfold full_prompt, py_lower, obind, fstr. f_equal.
    unfold before, between, after, instruction_sentence, field_listing.
    rewrite !append_assoc. reflexivity.
  - exists before, between, after. split; [reflexivity|split].
    + exists (nl ++ "    3."),
             (" Always return the blog content as plain text."
              ++ nl ++ nl ++ "    ").
      reflexivity.
    + exists (nl ++ "    3.Do NOT add any comments, disclaimers, or follow-up dialogue. "),
             (nl ++ nl ++ "    ").
      reflexivity.
  - exists "Generate a ",
           (" informative blog post on the following topic for a "
            ++ lower level ++ " audience.").
    reflexivity.
  - apply lower_lowercase_of.
  - apply lower_no_uppercase.
  - reflexivity.
  - reflexivity.
Qed.

(* ------------------------------------------------------------------ *)
(** * The functions, case by case *)

Lemma request_body_cases (env : Env) (event : pyval) :
  request_body env event
  = match event with
    | VDict e =>
        match assoc "body" e with
        | Some (VStr s) => py_json_loads env (VStr s)
        | Some v => Return v
        | None => Return (VDict [])
        end
    | _ => Raise (no_attribute event "get")
    end.
Proof.
  destruct event as [ | | | | | |e]; try reflexivity.
  unfold request_body, py_get, py_getitem, dict_get, obind.
  destruct (assoc "body" e) as [[ | | | | | | ]|]; reflexivity.
Qed.

Lemma extract_fields_cases (b : pyval) :
  extract_fields b
  = match b with
    | VDict d =>
        match assoc "blogTopic" d with
        | Some (VStr s) =>
            if is_empty (strip s)
            then Raise (Exn ValueError "Blog topic is required")
            else Return (strip s,
                         dict_get d "level" (VStr "Intermediate"),
                         dict_get d "context" (VStr ""))
        | Some v => Raise (no_attribute v "strip")
        | None => Raise (Exn ValueError "Blog topic is required")
        end
    | _ => Raise (no_attribute b "get")
    end.
Proof.
  destruct b as [ | | | | | |d]; try reflexivity.
  unfold extract_fields, py_get, dict_get, obind.
  destruct (assoc "blogTopic" d) as [[ | | | |s| | ]|]; reflexivity.
Qed.

Lemma validate_input_of_body (env : Env) (event body : pyval) :
  request_body env event = Return body ->
  validate_input env event
  = match extract_fields body with
    | Return r => Return r
    | Raise e => Raise (Exn ValueError (str_of e))
    end.
Proof.
  intros H. unfold validate_input, otry, obind. rewrite H.
  destruct (extract_fields body) as [r|e] eqn:E; [reflexivity|].
  now rewrite (extract_fields_raise _ E).
Qed.

Lemma s3_uploader_cases (env : Env) (content : pyval) (bucket prefix : string) :
  s3_uploader env content bucket prefix
  = match content with
    | VDict d =>
        match dict_get d "blog" (VStr "") with
        | VStr s =>
            match put_object env (put_request env s bucket prefix) with
            | Return _ =>
                (Return true, [PutObject (put_request env s bucket prefix)])
            | Raise e =>
                (Return false,
                 [PutObject (put_request env s bucket prefix);
                  Log ERROR ("S3 upload failed: " ++ str_of e)])
            end
        | v =>
            (Return false,
             [Log ERROR ("S3 upload failed: " ++ str_of (no_attribute v "strip"))])
        end
    | _ =>
        (Return false,
         [Log ERROR ("S3 upload failed: " ++ str_of (no_attribute content "get"))])
    end.
Proof.
  unfold s3_uploader, put_request.
  destruct content as [ | | | | | |d]; try reflexivity.
  cbn -[append strftime_Ymd_HMS strip].
  destruct (dict_get d "blog" (VStr "")) as [ | | | |s| | ]; try reflexivity.
  cbn -[append strftime_Ymd_HMS strip].
  destruct (put_object env _) as [u|e]; reflexivity.
Qed.

(** The response depends on the event through [validate_input] alone. *)
Lemma handler_response_by_validation
      (env : Env) (event1 event2 : pyval) (context1 context2 : LambdaContext) :
  validate_input env event1 = validate_input env event2 ->
  fst (lambda_handler env event1 context1)
  = fst (lambda_handler env event2 context2).
Proof.
  destruct (validate_input env event2) as [[[t l] c]|e] eqn:H2; intros H1.
  - destruct (is_str l) eqn:Hl.
    + destruct l as [ | | | |l| | ]; try discriminate.
      destruct (handler_valid env event1 context1 H1) as (tr1 & -> & _).
      destruct (handler_valid env event2 context2 H2) as (tr2 & -> & _).
      reflexivity.
    + destruct (handler_level_not_str env event1 context1 H1 Hl) as (tr1 & -> & _).
      destruct (handler_level_not_str env event2 context2 H2 Hl) as (tr2 & -> & _).
      reflexivity.
  - destruct (handler_invalid env event1 context1 H1) as (tr1 & -> & _).
    destruct (handler_invalid env event2 context2 H2) as (tr2 & -> & _).
    reflexivity.
Qed.

Lemma trimmed_FALLBACK : trimmed FALLBACK.
Proof. apply trimmed_of_strip. reflexivity. Qed.

Lemma normalize_trimmed (s : string) : trimmed (normalize s).
Proof.
  unfold normalize. destruct (is_empty (strip s)).
  - apply trimmed_FALLBACK.
  - apply strip_is_trimmed.
Qed.

Lemma generated_blog_trimmed (env : Env) (p : string) :
  trimmed (generated_blog env p).
Proof.
  unfold generated_blog.
  destruct (inference_outcome env p) as [rb|e]; [|apply trimmed_FALLBACK].
  destruct (json_loads env rb) as [v|msg|r];
    [|apply trimmed_FALLBACK|apply trimmed_FALLBACK].
  destruct v as [ | | | | | |d]; try apply trimmed_FALLBACK.
  destruct (dict_get d "generation" (VStr "")); try apply trimmed_FALLBACK.
  apply normalize_trimmed.
Qed.

(** Everything a valid request with a str level leaves in the trace. *)
Lemma handler_valid_trace
      (env : Env) (event : pyval) (context : LambdaContext)
      (t l : string) (c : pyval) :
  validate_input env event = Return (t, VStr l, c) ->
  let blog := generated_blog env (prompt_of env t l c) in
  snd (lambda_handler env event context)
  = (Log INFO ("Incoming event: " ++ json_dumps env event)
     :: snd (content_generation env t (VStr l) c)
     ++ Log INFO ("Generated Content: "
                  ++ py_format env (VDict [("blog", VStr blog)]))
     :: snd (s3_uploader env (VDict [("blog", VStr blog)])
               "blogcreatorbucket" "generated-content"))%list.
Proof.
  intros H blog. unfold lambda_handler. rewrite H.
  cbn -[append content_generation s3_uploader].
  destruct (content_generation_return env t (VStr l) c (full_prompt_str env t l c))
    as (tr1 & E1 & _).
  rewrite E1. fold blog. cbn -[append s3_uploader].
  destruct (s3_uploader_blog env blog) as (tr2 & E2 & _).
  rewrite E2.
  destruct (put_object env (upload_request env blog)) as [u|e];
    cbn -[append]; now rewrite app_nil_r.
Qed.

Lemma upload_request_put_request (env : Env) (blog : string) :
  upload_request env blog
  = put_request env blog "blogcreatorbucket" "generated-content".
Proof. reflexivity. Qed.

(* ------------------------------------------------------------------ *)
(** * The handler as a whole *)

(** [lambda_handler] never raises: every event gets one response, with
    the two headers written in [format_response]. Its statusCode is 200
    exactly when validation passes with a str level, 400 exactly when
    validation fails, and 500 exactly when validation passes with a level
    that is not a str; nothing else gives 500. *)
Theorem handler_status_cases
        (env : Env) (event : pyval) (context : LambdaContext) :
  exists response,
    fst (lambda_handler env event context) = Return response
    /\ headers response = [("Content-Type", "application/json");
                           ("Access-Control-Allow-Origin", "*")]
    /\ (statusCode response = 200%Z
        <-> exists t l c, validate_input env event = Return (t, VStr l, c))
    /\ (statusCode response = 400%Z <-> raises (validate_input env event))
    /\ (statusCode response = 500%Z
        <-> exists t l c, validate_input env event = Return (t, l, c)
                          /\ is_str l = false).
Proof.
  destruct (validate_input env event) as [[[t l] c]|e] eqn:H.
  - destruct (is_str l) eqn:Hl.
    + destruct l as [ | | | |l| | ]; try discriminate.
      destruct (handler_valid env event context H) as (tr & -> & _).
      eexists. split; [reflexivity|]. split; [reflexivity|].
      cbn [statusCode format_response]. repeat split.
      * intros _. now exists t, l, c.
      * discriminate.
      * intros [e He]. discriminate.
      * discriminate.
      * intros (t' & l' & c' & He & Hs). injection He as <- <- <-.
        discriminate.
    + destruct (handler_level_not_str env event context H Hl) as (tr & -> & _).
      eexists. split; [reflexivity|]. split; [reflexivity|].
      cbn [statusCode format_response]. repeat split.
      * discriminate.
      * intros (t' & l' & c' & He). injection He as <- -> <-. discriminate.
      * discriminate.
      * intros [e He]. discriminate.
      * intros _. now exists t, l, c.
  - destruct (handler_invalid env event context H) as (tr & -> & _).
    eexists. split; [reflexivity|]. split; [reflexivity|].
    cbn [statusCode format_response]. repeat split.
    + discriminate.
    + intros (t' & l' & c' & He). discriminate.
    + intros _. now exists e.
    + discriminate.
    + intros (t' & l' & c' & He & _). discriminate.
Qed.

(** A 200 response comes after exactly one inference call and then
    exactly one storage write, made with the client configuration and the
    model identifier written in the code; any other response comes after
    no external call at all. *)
Theorem calls_follow_status
        (env : Env) (event : pyval) (context : LambdaContext) :
  exists response,
    fst (lambda_handler env event context) = Return response
    /\ ((statusCode response = 200%Z
         /\ exists payload req,
              calls (snd (lambda_handler env event context))
              = [InvokeModel bedrock_config payload MODEL_ID; PutObject req])
        \/ (statusCode response <> 200%Z
            /\ calls (snd (lambda_handler env event context)) = [])).
Proof.
  destruct (validate_input env event) as [[[t l] c]|e] eqn:H.
  - destruct (is_str l) eqn:Hl.
    + destruct l as [ | | | |l| | ]; try discriminate.
      destruct (handler_valid env event context H) as (tr & -> & Hc).
      eexists. split; [reflexivity|]. left. split; [reflexivity|].
      eexists _, _. exact Hc.
    + destruct (handler_level_not_str env event context H Hl) as (tr & -> & Hc).
      eexists. split; [reflexivity|]. right. split; [discriminate | exact Hc].
  - destruct (handler_invalid env event context H) as (tr & -> & Hc).
    eexists. split; [reflexivity|]. right. split; [discriminate | exact Hc].
Qed.

(** [s3_uploader] never raises, whatever it is given: it returns a bool,
    and true only after a write that the storage service accepted. *)
Theorem s3_uploader_never_raises
        (env : Env) (content : pyval) (bucket prefix : string) :
  exists ok,
    fst (s3_uploader env content bucket prefix) = Return ok
    /\ (ok = true ->
        exists req u,
          In (PutObject req) (snd (s3_uploader env content bucket prefix))
          /\ put_object env req = Return u
          /\ Bucket req = bucket
          /\ ContentType req = "text/plain").
Proof.
  rewrite s3_uploader_cases.
  destruct content as [ | | | | | |d];
    try (exists false; split; [reflexivity | discriminate]).
  destruct (dict_get d "blog" (VStr "")) as [ | | | |s| | ];
    try (exists false; split; [reflexivity | discriminate]).
  destruct (put_object env _) as [u|e] eqn:Hp.
  - exists true. split; [reflexivity|]. intros _.
    eexists _, u. split; [left; reflexivity|]. split; [exact Hp|].
    split; reflexivity.
  - exists false. split; [reflexivity | discriminate].
Qed.

(* ------------------------------------------------------------------ *)
(** * More on validation *)

(** A body that gives a usable topic passes validation with the topic
    trimmed; a level that is missing becomes 'Intermediate' and a context
    that is missing becomes the empty text, while a level or a context
    that is there is handed on as it is, whatever it is. *)
Theorem validate_input_defaults
        (env : Env) (event : pyval) (d : list (string * pyval)) (s : string) :
  request_body env event = Return (VDict d) ->
  assoc "blogTopic" d = Some (VStr s) ->
  strip s <> "" ->
  exists l c,
    validate_input env event = Return (strip s, l, c)
    /\ (assoc "level" d = None -> l = VStr "Intermediate")
    /\ (assoc "context" d = None -> c = VStr "")
    /\ (forall v, assoc "level" d = Some v -> l = v)
    /\ (forall v, assoc "context" d = Some v -> c = v).
Proof.
  intros Hb Ht Hs.
  exists (dict_get d "level" (VStr "Intermediate")), (dict_get d "context" (VStr "")).
  split.
  - rewrite (validate_input_of_body _ _ Hb), extract_fields_cases, Ht.
    apply is_empty_false in Hs. now rewrite Hs.
  - unfold dict_get. repeat split.
    + now intros ->.
    + now intros ->.
    + now intros v ->.
    + now intros v ->.
Qed.

Lemma validate_input_defaults_witness :
  exists l c,
    validate_input Sample.answering Cases.topic_only
    = Return (strip "  rust ownership ", l, c)
    /\ (assoc "level" [("blogTopic", VStr "  rust ownership ")] = None
        -> l = VStr "Intermediate")
    /\ (assoc "context" [("blogTopic", VStr "  rust ownership ")] = None
        -> c = VStr "")
    /\ (forall v, assoc "level" [("blogTopic", VStr "  rust ownership ")] = Some v
                  -> l = v)
    /\ (forall v, assoc "context" [("blogTopic", VStr "  rust ownership ")] = Some v
                  -> c = v).
Proof.
  apply (@validate_input_defaults Sample.answering Cases.topic_only
           [("blogTopic", VStr "  rust ownership ")] "  rust ownership ").
  - reflexivity.
  - reflexivity.
  - discriminate.
Defined.

Lemma lstrip_decompose (s : string) :
  exists a, s = a ++ lstrip s /\ all_space a = true.
Proof.
  induction s as [|c s (a & Ha & Hs)]; simpl.
  - now exists "".
  - destruct (isspace c) eqn:E.
    + exists (String c a). simpl. rewrite <- Ha, E, Hs. now split.
    + now exists "".
Qed.

Lemma rstrip_decompose (s : string) :
  exists b, s = rstrip s ++ b /\ all_space b = true.
Proof.
  induction s as [|c s (b & Hb & Hs)]; simpl.
  - now exists "".
  - destruct (rstrip s) as [|x t] eqn:R.
    + simpl in Hb. subst b. destruct (isspace c) eqn:E.
      * exists (String c s). simpl. rewrite E, Hs. now split.
      * exists s. now split.
    + exists b. simpl in *. rewrite <- Hb. now split.
Qed.

(** [strip] removes whitespace at the two ends and nothing else. *)
Lemma strip_decompose (s : string) :
  exists a b, s = a ++ strip s ++ b /\ all_space a = true /\ all_space b = true.
Proof.
  destruct (lstrip_decompose s) as (a & Ha & Hsa).
  destruct (rstrip_decompose (lstrip s)) as (b & Hb & Hsb).
  exists a, b. unfold strip. rewrite <- Hb. now repeat split.
Qed.

(** The topic that passes validation is the blogTopic of the body with
    the whitespace at its two ends removed and nothing else changed: it
    is not empty and neither starts nor ends with whitespace. *)
Theorem validated_topic_is_trimmed_input
        (env : Env) (event : pyval) (t : string) (l c : pyval) :
  validate_input env event = Return (t, l, c) ->
  t <> "" /\ trimmed t
  /\ exists s before after,
       blog_topic_of env event = Some (VStr s)
       /\ s = before ++ t ++ after
       /\ all_space before = true /\ all_space after = true.
Proof.
  intros H. apply validate_input_return in H. destruct H as (b & Hb & H).
  apply extract_fields_return in H.
  destruct H as (d & s & -> & Ht & Hs & -> & _).
  split; [exact Hs|]. split; [apply strip_is_trimmed|].
  destruct (strip_decompose s) as (before & after & E & Ha & Hb').
  exists s, before, after. unfold blog_topic_of. rewrite Hb.
  now repeat split.
Qed.

Lemma validated_topic_is_trimmed_input_witness :
  "rust ownership" <> "" /\ trimmed "rust ownership"
  /\ exists s before after,
       blog_topic_of Sample.answering Sample.request = Some (VStr s)
       /\ s = before ++ "rust ownership" ++ after
       /\ all_space before = true /\ all_space after = true.
Proof.
  apply (@validated_topic_is_trimmed_input Sample.answering Sample.request
           "rust ownership" (VStr "Advanced") (VStr "")).
  reflexivity.
Defined.

(** A body sent as a JSON text and the same body sent as the object the
    text decodes to are validated alike and get the same response. *)
Theorem json_body_same_as_object_body
        (env : Env) (event1 event2 : pyval) (context : LambdaContext)
        (s : string) (v : pyval) :
  event_body event1 = Some (VStr s) ->
  json_loads env s = Loaded v ->
  is_str v = false ->
  event_body event2 = Some v ->
  validate_input env event1 = validate_input env event2
  /\ fst (lambda_handler env event1 context)
     = fst (lambda_handler env event2 context).
Proof.
  intros H1 Hl Hv H2.
  assert (E1 : request_body env event1 = Return v).
  { rewrite request_body_cases. destruct event1 as [ | | | | | |e]; try discriminate.
    simpl in H1. rewrite H1. simpl. now rewrite Hl. }
  assert (E2 : request_body env event2 = Return v).
  { rewrite request_body_cases. destruct event2 as [ | | | | | |e]; try discriminate.
    simpl in H2. rewrite H2. destruct v; try reflexivity. discriminate. }
  assert (E : validate_input env event1 = validate_input env event2).
  { now rewrite (validate_input_of_body _ _ E1), (validate_input_of_body _ _ E2). }
  split; [exact E|]. now apply handler_response_by_validation.
Qed.

Lemma json_body_same_as_object_body_witness :
  validate_input Cases.decoding Cases.json_request
  = validate_input Cases.decoding Sample.request
  /\ fst (lambda_handler Cases.decoding Cases.json_request lambda_context)
     = fst (lambda_handler Cases.decoding Sample.request lambda_context).
Proof.
  apply (@json_body_same_as_object_body Cases.decoding Cases.json_request
           Sample.request lambda_context Cases.request_text
           (VDict [("blogTopic", VStr "  rust ownership ");
                   ("level", VStr "Advanced");
                   ("context", VStr "")])).
  - reflexivity.
  - reflexivity.
  - reflexivity.
  - reflexivity.
Defined.

(** What [request_body] raises: the event has no [get], or the decoder
    raises on the str body. *)
Lemma request_body_raise (env : Env) (event : pyval) (e : exn) :
  request_body env event = Raise e ->
  (is_dict event = false /\ e = no_attribute event "get")
  \/ (exists s msg, event_body event = Some (VStr s)
                    /\ json_loads env s = NotJSON msg
                    /\ e = Exn JSONDecodeError msg)
  \/ (exists s r, event_body event = Some (VStr s)
                  /\ json_loads env s = Refused r
                  /\ e = refusal_exn r).
Proof.
  rewrite request_body_cases.
  destruct event as [ | | | | | |ev];
    try (intros H; injection H as <-; left; now split).
  destruct (assoc "body" ev) as [[ | | | |s| | ]|] eqn:Hb; try discriminate.
  simpl. destruct (json_loads env s) as [x|msg|r] eqn:Hl; [discriminate| |].
  - intros H; injection H as <-. right. left. exists s, msg. now repeat split.
  - intros H; injection H as <-. right. right. exists s, r. now repeat split.
Qed.

(** The error is 'Blog topic is required' exactly when the body is an
    object (or is missing from the event, which counts as the empty
    object) whose blogTopic is missing, or is a str that is empty or made
    of whitespace. *)
Theorem topic_required_message (env : Env) (event : pyval) :
  validate_input env event = Raise (Exn ValueError "Blog topic is required")
  <-> exists d,
        request_body env event = Return (VDict d)
        /\ (assoc "blogTopic" d = None
            \/ exists s, assoc "blogTopic" d = Some (VStr s)
                         /\ all_space s = true).
Proof.
  split.
  - destruct (request_body env event) as [b|e0] eqn:Hb.
    + rewrite (validate_input_of_body _ _ Hb), extract_fields_cases.
      destruct b as [ | | | | | |d]; try (intros H; vm_compute in H; discriminate H).
      destruct (assoc "blogTopic" d) as [[ | | | |s| | ]|] eqn:Ht;
        try (intros H; vm_compute in H; discriminate H).
      * destruct (is_empty (strip s)) eqn:E; [|discriminate].
        intros _. exists d. split; [reflexivity|]. right. exists s.
        now rewrite <- strip_empty.
      * intros _. exists d. split; [reflexivity|]. now left.
    + unfold validate_input, otry, obind. rewrite Hb.
      destruct (request_body_raise _ _ Hb)
        as [[Hd ->] | [(s & msg & _ & _ & ->) | (s & r & _ & _ & ->)]].
      * destruct event; try discriminate; intros H; vm_compute in H; discriminate H.
      * intros H; vm_compute in H; discriminate H.
      * destruct r; intros H; cbn in H; discriminate H.
  - intros (d & Hb & H).
    rewrite (validate_input_of_body _ _ Hb), extract_fields_cases.
    destruct H as [-> | (s & -> & Hs)]; [reflexivity|].
    now rewrite strip_empty, Hs.
Qed.

(** The error is 'Invalid JSON payload' exactly when the body is a str
    on which the decoder raises JSONDecodeError; what that exception says
    about the text is not handed on. When the decoder raises another
    exception on the body (an integer literal with too many digits, a
    text nested too deep) the client gets, in a 400 response, the message
    of that exception as it is. *)
Theorem invalid_json_message (env : Env) (event : pyval) :
  (validate_input env event = Raise (Exn ValueError "Invalid JSON payload")
   <-> invalid_json_body env event)
  /\ (forall s r,
         event_body event = Some (VStr s) ->
         json_loads env s = Refused r ->
         validate_input env event
         = Raise (Exn ValueError (str_of (refusal_exn r)))
         /\ str_of (refusal_exn r) <> "Invalid JSON payload"
         /\ forall context,
              fst (lambda_handler env event context)
              = Return (format_response env
                          (VDict [("error", VStr (str_of (refusal_exn r)));
                                  ("success", VBool false)]) 400%Z)).
Proof.
  split; [split|].
  - destruct (request_body env event) as [b|e0] eqn:Hb.
    + rewrite (validate_input_of_body _ _ Hb), extract_fields_cases.
      destruct b as [ | | | | | |d]; try (intros H; vm_compute in H; discriminate H).
      destruct (assoc "blogTopic" d) as [[ | | | |s| | ]|];
        try (intros H; vm_compute in H; discriminate H).
      destruct (is_empty (strip s)); intros H; discriminate H.
    + unfold validate_input, otry, obind. rewrite Hb.
      destruct (request_body_raise _ _ Hb)
        as [[Hd ->] | [(s & msg & He & Hl & ->) | (s & r & _ & _ & ->)]].
      * destruct event; try discriminate; intros H; vm_compute in H; discriminate H.
      * intros _. now exists s, msg.
      * destruct r; intros H; cbn in H; discriminate H.
  - intros H. now apply invalid_json_body_raises in H.
  - intros s r Hb Hl.
    assert (Hv : validate_input env event
                 = Raise (Exn ValueError (str_of (refusal_exn r)))).
    { unfold validate_input, otry, obind. rewrite request_body_cases.
      destruct event as [ | | | | | |ev]; try discriminate.
      simpl in Hb. rewrite Hb. simpl. rewrite Hl. now destruct r. }
    split; [exact Hv|]. split.
    + destruct r; cbn; discriminate.
    + intros context.
      destruct (handler_invalid env event context Hv) as (tr & -> & _).
      reflexivity.
Qed.

Lemma invalid_json_message_witness :
  validate_input Cases.limited Cases.long_number
  = Raise (Exn ValueError (str_of (refusal_exn Cases.over_the_limit)))
  /\ str_of (refusal_exn Cases.over_the_limit) <> "Invalid JSON payload"
  /\ forall context,
       fst (lambda_handler Cases.limited Cases.long_number context)
       = Return (format_response Cases.limited
                   (VDict [("error",
                            VStr (str_of (refusal_exn Cases.over_the_limit)));
                           ("success", VBool false)]) 400%Z).
Proof.
  apply (proj2 (invalid_json_message Cases.limited Cases.long_number)
           (Cases.ones 4301) Cases.over_the_limit).
  - reflexivity.
  - vm_compute. reflexivity.
Defined.

(** An AttributeError of Python reaches the client as it is, in a 400
    response: for an event or a body without [get] (a body that is null,
    a list or a number, a JSON text that decodes to one of these or to a
    str), and for a blogTopic without [strip]. *)
Theorem attribute_errors_reach_the_client
        (env : Env) (event : pyval) (context : LambdaContext)
        (v : pyval) (attr : string) :
  (is_dict event = false /\ v = event /\ attr = "get")
  \/ (request_body env event = Return v /\ is_dict v = false /\ attr = "get")
  \/ (blog_topic_of env event = Some v /\ is_str v = false /\ attr = "strip") ->
  fst (lambda_handler env event context)
  = Return (format_response env
              (VDict [("error",
                       VStr ("'" ++ type_name v
                             ++ "' object has no attribute '" ++ attr ++ "'"));
                      ("success", VBool false)]) 400%Z).
Proof.
  intros H.
  assert (Hv : validate_input env event
               = Raise (Exn ValueError (str_of (no_attribute v attr)))).
  { destruct H as [(Hd & -> & ->) | [(Hb & Hd & ->) | (Ht & Hs & ->)]].
    - unfold validate_input, otry, obind. rewrite request_body_cases.
      destruct event; try discriminate; reflexivity.
    - rewrite (validate_input_of_body _ _ Hb), extract_fields_cases.
      destruct v; try discriminate; reflexivity.
    - unfold blog_topic_of in Ht.
      destruct (request_body env event) as [b|e] eqn:Hb; [|discriminate].
      destruct b as [ | | | | | |d]; try discriminate.
      rewrite (validate_input_of_body _ _ Hb), extract_fields_cases, Ht.
      destruct v; try discriminate; reflexivity. }
  destruct (handler_invalid env event context Hv) as (tr & -> & _).
  reflexivity.
Qed.

Lemma attribute_errors_reach_the_client_witness :
  fst (lambda_handler Sample.answering Cases.null_body lambda_context)
  = Return (format_response Sample.answering
              (VDict [("error",
                       VStr ("'" ++ type_name VNone
                             ++ "' object has no attribute '" ++ "get" ++ "'"));
                      ("success", VBool false)]) 400%Z).
Proof.
  apply (@attribute_errors_reach_the_client Sample.answering Cases.null_body
           lambda_context VNone "get").
  right. left. repeat split.
Defined.

(* ------------------------------------------------------------------ *)
(** * What is stored *)

Lemma generated_blog_malformed (env : Env) (p : string) :
  inference_malformed env p -> generated_blog env p = FALLBACK.
Proof.
  unfold generated_blog.
  intros (rb & -> & [(msg & ->) | [(v & -> & Hv) | (d & v & -> & Hg & Hv)]]).
  - reflexivity.
  - destruct v; try reflexivity. discriminate.
  - unfold dict_get. rewrite Hg. destruct v; try reflexivity. discriminate.
Qed.

Lemma calls_In (x : effect) (t : list effect) : In x (calls t) -> In x t.
Proof. intros H. apply filter_In in H. now destruct H. Qed.

(** The text the handler stores is the text it answers with: every
    storage write goes to the bucket blogcreatorbucket with, as Body, the
    'blog' of the 200 response, a text that is not empty and neither
    starts nor ends with whitespace. *)
Theorem stored_text_is_response_blog
        (env : Env) (event : pyval) (context : LambdaContext)
        (req : PutObjectRequest) :
  In (PutObject req) (snd (lambda_handler env event context)) ->
  exists response message,
    fst (lambda_handler env event context) = Return response
    /\ statusCode response = 200%Z
    /\ body response = json_dumps env (blog_body (Body req) message)
    /\ trimmed (Body req) /\ Body req <> ""
    /\ Bucket req = "blogcreatorbucket".
Proof.
  intros Hin. apply (in_calls (PutObject req)) in Hin; [|reflexivity].
  destruct (handler_calls env event context) as [Hc | (t & l & c & Hv & Hc)];
    rewrite Hc in Hin; [contradiction|].
  destruct Hin as [Hin | [Hin | []]]; [discriminate|].
  injection Hin as <-.
  destruct (handler_valid env event context Hv) as (tr & -> & _).
  pose proof (generated_blog_trimmed env (prompt_of env t l c)) as Ht.
  pose proof (generated_blog_not_empty env (prompt_of env t l c)) as Hne.
  cbn [Body upload_request Bucket]. rewrite (strip_trimmed Ht).
  eexists _, _. repeat split; try assumption; apply Ht.
Qed.

Lemma stored_text_is_response_blog_witness :
  exists response message,
    fst (lambda_handler Sample.answering Sample.request lambda_context)
    = Return response
    /\ statusCode response = 200%Z
    /\ body response
       = json_dumps Sample.answering
           (blog_body (Body (upload_request Sample.answering
                               "Ownership moves values.")) message)
    /\ trimmed (Body (upload_request Sample.answering "Ownership moves values."))
    /\ Body (upload_request Sample.answering "Ownership moves values.") <> ""
    /\ Bucket (upload_request Sample.answering "Ownership moves values.")
       = "blogcreatorbucket".
Proof.
  apply (@stored_text_is_response_blog Sample.answering Sample.request
           lambda_context
           (upload_request Sample.answering "Ownership moves values.")).
  vm_compute. do 5 right. left. reflexivity.
Defined.

(** When the inference gives nothing usable the handler still writes to
    the storage: the object it stores holds the fallback text. *)
Theorem fallback_text_is_stored
        (env : Env) (event : pyval) (context : LambdaContext)
        (t l : string) (c : pyval) :
  validate_input env event = Return (t, VStr l, c) ->
  inference_unusable env (prompt_of env t l c)
  \/ inference_malformed env (prompt_of env t l c) ->
  exists req,
    In (PutObject req) (snd (lambda_handler env event context))
    /\ Body req = "Failed to generate content. Please try again."
    /\ Bucket req = "blogcreatorbucket"
    /\ Key req = "generated-content/" ++ strftime_Ymd_HMS (now env) ++ ".txt".
Proof.
  intros H Hu.
  assert (E : generated_blog env (prompt_of env t l c) = FALLBACK).
  { destruct Hu as [Hu | Hu];
      [now apply generated_blog_unusable | now apply generated_blog_malformed]. }
  destruct (handler_valid env event context H) as (tr & -> & Hc).
  rewrite E in Hc. exists (upload_request env FALLBACK). split.
  - apply calls_In. cbn [snd]. rewrite Hc. right. left. reflexivity.
  - repeat split.
Qed.

Lemma fallback_text_is_stored_witness :
  exists req,
    In (PutObject req)
       (snd (lambda_handler Sample.failing Sample.request lambda_context))
    /\ Body req = "Failed to generate content. Please try again."
    /\ Bucket req = "blogcreatorbucket"
    /\ Key req = "generated-content/"
                 ++ strftime_Ymd_HMS (now Sample.failing) ++ ".txt".
Proof.
  apply (@fallback_text_is_stored Sample.failing Sample.request lambda_context
           "rust ownership" "Advanced" (VStr "")).
  - reflexivity.
  - left. left. eexists. reflexivity.
Defined.

(** An answer of the inference call that cannot be read (a text that is
    not JSON, JSON that is not an object, a 'generation' that is not a
    str) gives the fallback text in a 200 response, as a failed call
    does. *)
Theorem malformed_inference_gives_fallback
        (env : Env) (event : pyval) (context : LambdaContext)
        (t l : string) (c : pyval) :
  validate_input env event = Return (t, VStr l, c) ->
  inference_malformed env (prompt_of env t l c) ->
  exists response message,
    fst (lambda_handler env event context) = Return response
    /\ statusCode response = 200%Z
    /\ body response
       = json_dumps env
           (blog_body "Failed to generate content. Please try again." message).
Proof.
  intros H Hu. destruct (handler_valid env event context H) as (tr & -> & _).
  rewrite (generated_blog_malformed Hu). eexists _, _. repeat split.
Qed.

Lemma malformed_inference_gives_fallback_witness :
  exists response message,
    fst (lambda_handler Cases.garbled Sample.request lambda_context)
    = Return response
    /\ statusCode response = 200%Z
    /\ body response
       = json_dumps Cases.garbled
           (blog_body "Failed to generate content. Please try again." message).
Proof.
  apply (@malformed_inference_gives_fallback Cases.garbled Sample.request
           lambda_context "rust ownership" "Advanced" (VStr "")).
  - reflexivity.
  - exists "<html>Bad Gateway</html>". split; [reflexivity|].
    left. eexists. reflexivity.
Defined.

(* ------------------------------------------------------------------ *)
(** * [s3_uploader] on its own *)

Lemma append_cancel_l (a x y : string) : a ++ x = a ++ y -> x = y.
Proof.
  induction a as [|c a IH]; simpl; intros H; [exact H|].
  injection H as H. now apply IH.
Qed.

Lemma append_same_length (x y b b' : string) :
  String.length x = String.length y -> x ++ b = y ++ b' -> x = y.
Proof.
  revert y; induction x as [|c x IH]; intros [|d y]; simpl; intros Hl H;
    try discriminate; [reflexivity|].
  injection H as -> H. injection Hl as Hl. f_equal. now apply IH.
Qed.

Lemma s3_uploader_put
      (env : Env) (content : pyval) (bucket prefix : string)
      (req : PutObjectRequest) :
  In (PutObject req) (snd (s3_uploader env content bucket prefix)) ->
  exists d s,
    content = VDict d /\ dict_get d "blog" (VStr "") = VStr s
    /\ req = put_request env s bucket prefix.
Proof.
  rewrite s3_uploader_cases.
  destruct content as [ | | | | | |d];
    try (intros [H | []]; discriminate).
  destruct (dict_get d "blog" (VStr "")) as [ | | | |s| | ] eqn:Hg;
    try (intros [H | []]; discriminate).
  intros H. exists d, s. split; [reflexivity|]. split; [exact Hg|].
  destruct (put_object env (put_request env s bucket prefix));
    cbn [snd] in H.
  - destruct H as [H | []]. now injection H.
  - destruct H as [H | [H | []]]; [now injection H | discriminate].
Qed.

(** The key of a write tells its second and nothing else: two writes of
    [s3_uploader] under the same prefix have the same key exactly when
    they are made in the same second, whatever they store; so a second
    write in the same second replaces the first, and writes in different
    seconds never meet. *)
Theorem storage_key_identifies_second
        (env1 env2 : Env) (content1 content2 : pyval) (bucket prefix : string)
        (req1 req2 : PutObjectRequest) :
  calendar_instant (now env1) ->
  calendar_instant (now env2) ->
  In (PutObject req1) (snd (s3_uploader env1 content1 bucket prefix)) ->
  In (PutObject req2) (snd (s3_uploader env2 content2 bucket prefix)) ->
  (Key req1 = Key req2 <-> now env1 = now env2).
Proof.
  intros C1 C2 H1 H2.
  destruct (s3_uploader_put _ _ _ _ _ H1) as (d1 & s1 & _ & _ & ->).
  destruct (s3_uploader_put _ _ _ _ _ H2) as (d2 & s2 & _ & _ & ->).
  cbn [Key put_request].
  destruct (strftime_reads_back C1) as [P1 L1].
  destruct (strftime_reads_back C2) as [P2 L2].
  split.
  - intros H. apply append_cancel_l in H. apply append_cancel_l in H.
    apply append_same_length in H; [|congruence].
    rewrite H in P1. congruence.
  - now intros ->.
Qed.

Lemma storage_key_identifies_second_witness :
  Key (put_request Sample.answering "first" "bucket" "posts")
  = Key (put_request Cases.answering_later "second" "bucket" "posts")
  <-> now Sample.answering = now Cases.answering_later.
Proof.
  apply (@storage_key_identifies_second Sample.answering Cases.answering_later
           (VDict [("blog", VStr "first")]) (VDict [("blog", VStr "second")])
           "bucket" "posts").
  - unfold calendar_instant. simpl. lia.
  - unfold calendar_instant. simpl. lia.
  - left. reflexivity.
  - left. reflexivity.
Defined.

(** A content without the key 'blog' is not refused: [s3_uploader]
    stores an empty object for it, and reports the outcome of that
    write. *)
Theorem s3_uploader_without_blog
        (env : Env) (d : list (string * pyval)) (bucket prefix : string) :
  assoc "blog" d = None ->
  let req := {| Body := "";
                Bucket := bucket;
                Key := prefix ++ "/" ++ strftime_Ymd_HMS (now env) ++ ".txt";
                ContentType := "text/plain" |} in
  In (PutObject req) (snd (s3_uploader env (VDict d) bucket prefix))
  /\ (fst (s3_uploader env (VDict d) bucket prefix) = Return true
      <-> exists u, put_object env req = Return u).
Proof.
  intros H req. rewrite s3_uploader_cases. unfold dict_get. rewrite H.
  change (put_request env "" bucket prefix) with req.
  destruct (put_object env req) as [u|e]; cbn [fst snd]; split.
  - now left.
  - split; [intros _; now exists u | reflexivity].
  - now left.
  - split; [discriminate | intros [u Hu]; discriminate].
Qed.

Lemma s3_uploader_without_blog_witness :
  let req := {| Body := "";
                Bucket := "bucket";
                Key := "posts" ++ "/"
                       ++ strftime_Ymd_HMS (now Sample.answering) ++ ".txt";
                ContentType := "text/plain" |} in
  In (PutObject req) (snd (s3_uploader Sample.answering (VDict []) "bucket" "posts"))
  /\ (fst (s3_uploader Sample.answering (VDict []) "bucket" "posts") = Return true
      <-> exists u, put_object Sample.answering req = Return u).
Proof.
  apply (@s3_uploader_without_blog Sample.answering [] "bucket" "posts").
  reflexivity.
Defined.

(** A content that is not a dict, or whose 'blog' is not a str, is never
    written: [s3_uploader] returns false without calling the storage, and
    logs the error. *)
Theorem s3_uploader_unreadable_content
        (env : Env) (content : pyval) (bucket prefix : string) :
  no_blog_text content ->
  fst (s3_uploader env content bucket prefix) = Return false
  /\ calls (snd (s3_uploader env content bucket prefix)) = []
  /\ exists msg,
       snd (s3_uploader env content bucket prefix)
       = [Log ERROR ("S3 upload failed: " ++ msg)].
Proof.
  intros H. rewrite s3_uploader_cases.
  destruct H as [H | (d & v & -> & Hb & Hv)].
  - destruct content; try discriminate; repeat split; eexists; reflexivity.
  - unfold dict_get. rewrite Hb.
    destruct v; try discriminate; repeat split; eexists; reflexivity.
Qed.

Lemma s3_uploader_unreadable_content_witness :
  fst (s3_uploader Sample.answering (VStr "Ownership moves values.")
         "bucket" "posts") = Return false
  /\ calls (snd (s3_uploader Sample.answering (VStr "Ownership moves values.")
                   "bucket" "posts")) = []
  /\ exists msg,
       snd (s3_uploader Sample.answering (VStr "Ownership moves values.")
              "bucket" "posts")
       = [Log ERROR ("S3 upload failed: " ++ msg)].
Proof.
  apply (@s3_uploader_unreadable_content Sample.answering
           (VStr "Ownership moves values.") "bucket" "posts").
  left. reflexivity.
Defined.

(* ------------------------------------------------------------------ *)
(** * The log *)

Lemma content_generation_raise_trace
      (env : Env) (t l : string) (c : pyval) (e : exn) :
  inference_outcome env (prompt_of env t l c) = Raise e ->
  snd (content_generation env t (VStr l) c)
  = [Log INFO ("Invoking Bedrock model with prompt: " ++ prompt_of env t l c);
     InvokeModel bedrock_config
       (json_dumps env (request_payload (prompt_of env t l c))) MODEL_ID;
     Log ERROR ("Bedrock invocation failed: " ++ str_of e)].
Proof.
  intros H. unfold inference_outcome in H.
  unfold content_generation. rewrite full_prompt_str.
  cbn -[append prompt_of]. rewrite H. reflexivity.
Qed.

(** The failures the handler absorbs into a 200 response are not lost:
    an exception of the inference call and an exception of the storage
    write each leave an ERROR record with the message of the exception. *)
Theorem absorbed_failures_are_logged
        (env : Env) (event : pyval) (context : LambdaContext)
        (t l : string) (c : pyval) :
  validate_input env event = Return (t, VStr l, c) ->
  let p := prompt_of env t l c in
  (forall e,
      inference_outcome env p = Raise e ->
      In (Log ERROR ("Bedrock invocation failed: " ++ str_of e))
         (snd (lambda_handler env event context)))
  /\ (forall e,
         put_object env (upload_request env (generated_blog env p)) = Raise e ->
         In (Log ERROR ("S3 upload failed: " ++ str_of e))
            (snd (lambda_handler env event context))).
Proof.
  intros H p. rewrite (handler_valid_trace env event context H). fold p. split.
  - intros e He. right. apply in_or_app. left.
    unfold p. rewrite (content_generation_raise_trace _ _ _ _ He).
    right. right. left. reflexivity.
  - intros e He. right. apply in_or_app. right. right.
    rewrite s3_uploader_cases. cbn [dict_get assoc String.eqb Ascii.eqb Bool.eqb].
    rewrite <- upload_request_put_request, He. right. left. reflexivity.
Qed.

Lemma absorbed_failures_are_logged_witness :
  let p := prompt_of Sample.failing "rust ownership" "Advanced" (VStr "") in
  (forall e,
      inference_outcome Sample.failing p = Raise e ->
      In (Log ERROR ("Bedrock invocation failed: " ++ str_of e))
         (snd (lambda_handler Sample.failing Sample.request lambda_context)))
  /\ (forall e,
         put_object Sample.failing
           (upload_request Sample.failing (generated_blog Sample.failing p))
         = Raise e ->
         In (Log ERROR ("S3 upload failed: " ++ str_of e))
            (snd (lambda_handler Sample.failing Sample.request lambda_context))).
Proof.
  apply (@absorbed_failures_are_logged Sample.failing Sample.request
           lambda_context "rust ownership" "Advanced" (VStr "")).
  reflexivity.
Defined.

(* ------------------------------------------------------------------ *)
(** * The page: [call_lambda_backend] *)

Import App.

Lemma call_lambda_backend_cases
      (page : Page) (topic expertise context : string) :
  call_lambda_backend page topic expertise context
  = let r := post_request topic expertise context in
    match requests_post page r with
    | Failed (RequestException msg) =>
        (Done VNone, [Post r; ShowError ("Error connecting to API: " ++ msg)])
    | Failed (OtherError e) => (Failed (OtherError e), [Post r])
    | Done response =>
        if (status_code response =? 200)%Z then
          match json response with
          | Failed (RequestException msg) =>
              (Done VNone,
               [Post r; ShowError ("Error connecting to API: " ++ msg)])
          | Failed (OtherError e) => (Failed (OtherError e), [Post r])
          | Done content =>
              match py_in "blog" content with
              | Raise e => (Failed (OtherError e), [Post r])
              | Return false => (Done VNone, [Post r])
              | Return true =>
                  match py_getitem content "blog" with
                  | Return v => (Done v, [Post r])
                  | Raise e => (Failed (OtherError e), [Post r])
                  end
              end
          end
        else
          (Done VNone,
           [Post r;
            ShowError ("API returned status code: "
                       ++ str_of_int (status_code response))])
    end.
Proof.
  unfold call_lambda_backend, call_post, except_RequestException, ui_bind.
  cbv zeta.
  destruct (requests_post page (post_request topic expertise context))
    as [response|[msg|e]]; try reflexivity.
  destruct (status_code response =? 200)%Z; [|reflexivity].
  unfold ui_lift. destruct (json response) as [content|[msg|e]]; try reflexivity.
  unfold of_outcome.
  destruct (py_in "blog" content) as [[|]|e]; try reflexivity.
  destruct (py_getitem content "blog") as [v|e]; reflexivity.
Qed.

Lemma call_lambda_backend_requests
      (page : Page) (topic expertise context : string) :
  requests_of (snd (call_lambda_backend page topic expertise context))
  = [Post (post_request topic expertise context)].
Proof.
  rewrite call_lambda_backend_cases. cbv zeta.
  destruct (requests_post page _) as [response|[msg|e]]; try reflexivity.
  destruct (status_code response =? 200)%Z; [|reflexivity].
  destruct (json response) as [content|[msg|e]]; try reflexivity.
  destruct (py_in "blog" content) as [[|]|e]; try reflexivity.
  destruct (py_getitem content "blog") as [v|e]; reflexivity.
Qed.

Lemma call_lambda_backend_content
      (page : Page) (topic expertise context : string) :
  content_of (snd (call_lambda_backend page topic expertise context)) = [].
Proof.
  rewrite call_lambda_backend_cases. cbv zeta.
  destruct (requests_post page _) as [response|[msg|e]]; try reflexivity.
  destruct (status_code response =? 200)%Z; [|reflexivity].
  destruct (json response) as [content|[msg|e]]; try reflexivity.
  destruct (py_in "blog" content) as [[|]|e]; try reflexivity.
  destruct (py_getitem content "blog") as [v|e]; reflexivity.
Qed.

(** A status code other than 200 gives [None] and the message 'API
    returned status code: N'; the body of the answer is not read, so
    what the endpoint says about the failure is not shown. *)
Theorem non_200_status_hides_the_answer
        (page : Page) (topic expertise context : string)
        (response : HttpResponse) :
  requests_post page (post_request topic expertise context) = Done response ->
  status_code response <> 200%Z ->
  call_lambda_backend page topic expertise context
  = (Done VNone,
     [Post (post_request topic expertise context);
      ShowError ("API returned status code: "
                 ++ str_of_int (status_code response))]).
Proof.
  intros H Hs. rewrite call_lambda_backend_cases. cbv zeta. rewrite H.
  apply Z.eqb_neq in Hs. now rewrite Hs.
Qed.

Lemma non_200_status_hides_the_answer_witness :
  call_lambda_backend Visit.refused "" "Beginner" ""
  = (Done VNone,
     [Post (post_request "" "Beginner" "");
      ShowError ("API returned status code: "
                 ++ str_of_int
                      (status_code
                         {| status_code := 400;
                            json := Done (VDict [("error",
                                                  VStr "Blog topic is required");
                                                 ("success", VBool false)]) |}))]).
Proof.
  apply (@non_200_status_hides_the_answer Visit.refused "" "Beginner" "").
  - reflexivity.
  - discriminate.
Defined.

(** An exception of [requests], raised by the POST or by the decoding of
    a 200 answer, does not leave [call_lambda_backend]: the result is
    [None], and the message 'Error connecting to API: ' with the text of
    the exception is shown. *)
Theorem request_exceptions_are_absorbed
        (page : Page) (topic expertise context msg : string) :
  requests_post page (post_request topic expertise context)
  = Failed (RequestException msg)
  \/ (exists response,
        requests_post page (post_request topic expertise context)
        = Done response
        /\ status_code response = 200%Z
        /\ json response = Failed (RequestException msg)) ->
  call_lambda_backend page topic expertise context
  = (Done VNone,
     [Post (post_request topic expertise context);
      ShowError ("Error connecting to API: " ++ msg)]).
Proof.
  intros [H | (response & H & Hs & Hj)];
    rewrite call_lambda_backend_cases; cbv zeta; rewrite H; [reflexivity|].
  rewrite Hs, Hj. reflexivity.
Qed.

Lemma request_exceptions_are_absorbed_witness :
  call_lambda_backend Visit.unreachable "rust ownership" "Beginner" ""
  = (Done VNone,
     [Post (post_request "rust ownership" "Beginner" "");
      ShowError ("Error connecting to API: " ++ "Connection refused")]).
Proof.
  apply (@request_exceptions_are_absorbed Visit.unreachable
           "rust ownership" "Beginner" "" "Connection refused").
  left. reflexivity.
Defined.

(** For a 200 answer that decodes to an object, the result is the value
    under 'blog', whatever it is, or [None] when the key is missing;
    nothing is shown. *)
Theorem backend_returns_blog_of_object
        (page : Page) (topic expertise context : string)
        (response : HttpResponse) (d : list (string * pyval)) :
  requests_post page (post_request topic expertise context) = Done response ->
  status_code response = 200%Z ->
  json response = Done (VDict d) ->
  call_lambda_backend page topic expertise context
  = (Done (dict_get d "blog" VNone),
     [Post (post_request topic expertise context)]).
Proof.
  intros H Hs Hj. rewrite call_lambda_backend_cases. cbv zeta.
  rewrite H, Hs, Hj. unfold py_in, py_getitem, dict_get.
  now destruct (assoc "blog" d).
Qed.

Lemma backend_returns_blog_of_object_witness :
  call_lambda_backend Visit.answered "rust ownership" "Advanced" ""
  = (Done (dict_get [("blog", VStr "Ownership moves values.");
                     ("message", VStr UPLOADED)] "blog" VNone),
     [Post (post_request "rust ownership" "Advanced" "")]).
Proof.
  apply (@backend_returns_blog_of_object Visit.answered
           "rust ownership" "Advanced" ""
           {| status_code := 200; json := Done Visit.answer |}).
  - reflexivity.
  - reflexivity.
  - reflexivity.
Defined.

(** A 200 answer that decodes to [None], a bool or a number makes
    [call_lambda_backend] raise a TypeError, which its handler for the
    exceptions of [requests] does not catch. *)
Theorem non_container_answer_raises
        (page : Page) (topic expertise context : string)
        (response : HttpResponse) (v : pyval) :
  requests_post page (post_request topic expertise context) = Done response ->
  status_code response = 200%Z ->
  json response = Done v ->
  is_container v = false ->
  exists e,
    call_lambda_backend page topic expertise context
    = (Failed (OtherError e), [Post (post_request topic expertise context)])
    /\ class_of e = TypeError.
Proof.
  intros H Hs Hj Hv. rewrite call_lambda_backend_cases. cbv zeta.
  rewrite H, Hs, Hj.
  destruct v; try discriminate; eexists; split; reflexivity.
Qed.

Lemma non_container_answer_raises_witness :
  exists e,
    call_lambda_backend Visit.answered_number "rust ownership" "Beginner" ""
    = (Failed (OtherError e),
       [Post (post_request "rust ownership" "Beginner" "")])
    /\ class_of e = TypeError.
Proof.
  apply (@non_container_answer_raises Visit.answered_number
           "rust ownership" "Beginner" ""
           {| status_code := 200; json := Done (VInt 7) |} (VInt 7)).
  - reflexivity.
  - reflexivity.
  - reflexivity.
  - reflexivity.
Defined.

(* ------------------------------------------------------------------ *)
(** * The page: [main] *)

(** One step of a run of the page. *)
Ltac run_page :=
  cbn -[append truthy strftime_Ymd_HMS_underscore strip];
  change (truthy VNone) with false;
  cbn -[append truthy strftime_Ymd_HMS_underscore strip].

Lemma main_cases (page : Page) (session : pyval) :
  main page session
  = match
      (if generate_clicked page then
         match call_lambda_backend page (strip (input_topic page))
                 (input_expertise page) (strip (input_context page)) with
         | (Done content, t) =>
             if truthy content then
               (Done content,
                Spinner "Generating content..." :: t
                ++ [ShowSuccess "Content generated successfully!"])
             else
               (Done session,
                Spinner "Generating content..." :: t
                ++ [ShowError "Failed to generate content. Please try again."])
         | (Failed f, t) => (Failed f, Spinner "Generating content..." :: t)
         end
       else (Done session, []))
    with
    | (Done after_generate, t) =>
        let after_clear :=
          if clear_clicked page then VNone else after_generate in
        (Done after_clear, t ++ display page after_clear)
    | (Failed f, t) => (Failed f, t)
    end%list.
Proof.
  unfold main, input_section, display, shown_content, download_button.
  destruct (generate_clicked page);
    [destruct (call_lambda_backend page (strip (input_topic page))
                 (input_expertise page) (strip (input_context page)))
       as [[content|f] t]; [|reflexivity] |];
    destruct (clear_clicked page); run_page;
    try (destruct (truthy content) eqn:Hc; run_page; rewrite ?Hc; run_page);
    try (destruct (truthy session) eqn:Hs; run_page; rewrite ?Hs; run_page);
    rewrite ?app_nil_r, <- ?app_assoc; reflexivity.
Qed.

Lemma requests_of_app (a b : list action) :
  requests_of (a ++ b) = (requests_of a ++ requests_of b)%list.
Proof. apply filter_app. Qed.

Lemma content_of_app (a b : list action) :
  content_of (a ++ b) = (content_of a ++ content_of b)%list.
Proof. apply filter_app. Qed.

Lemma requests_of_display (page : Page) (v : pyval) :
  requests_of (display page v) = [].
Proof. unfold display. now destruct (truthy v). Qed.

Lemma content_of_display (page : Page) (v : pyval) :
  content_of (display page v) = display page v.
Proof. unfold display. now destruct (truthy v). Qed.

(** A run sends no request unless Generate Content was clicked, and then
    exactly one, whatever the answer: a POST to the endpoint, with the
    topic and the context trimmed and the level as chosen, and a timeout
    of 30 seconds; nothing is sent again. *)
Theorem run_sends_at_most_one_request (page : Page) (session : pyval) :
  requests_of (snd (main page session))
  = if generate_clicked page
    then [Post {| url := API_ENDPOINT;
                  payload_json :=
                    VDict [("blogTopic", VStr (strip (input_topic page)));
                           ("level", VStr (input_expertise page));
                           ("context", VStr (strip (input_context page)))];
                  request_headers := [("Content-Type", "application/json")];
                  timeout := 30 |}]
    else [].
Proof.
  rewrite main_cases.
  destruct (generate_clicked page).
  - pose proof (call_lambda_backend_requests page (strip (input_topic page))
                  (input_expertise page) (strip (input_context page))) as R.
    destruct (call_lambda_backend page (strip (input_topic page))
                (input_expertise page) (strip (input_context page)))
      as [[content|f] t]; cbn [snd] in R.
    + destruct (truthy content); cbv zeta; cbn [snd];
        rewrite app_comm_cons, !requests_of_app, requests_of_display;
        cbn [requests_of filter is_post]; fold (requests_of t);
        rewrite R; reflexivity.
    + cbn [snd requests_of filter is_post]. fold (requests_of t). exact R.
  - cbv zeta. cbn [snd app]. apply requests_of_display.
Qed.

(** After a run that ends normally the page shows generated content
    exactly when the session state it leaves is true for [if], and what
    it shows is that state: a subheader, the content, and a download
    button for it named content_YYYYMMDD_HHMMSS.txt after the clock. *)
Theorem display_matches_state (page : Page) (session after : pyval) :
  fst (main page session) = Done after ->
  content_of (snd (main page session))
  = if truthy after
    then [Subheader "Generated Content";
          WriteOut after;
          Download {| data := after;
                      file_name := "content_"
                                   ++ strftime_Ymd_HMS_underscore (clock page)
                                   ++ ".txt";
                      mime := "text/plain" |}]
    else [].
Proof.
  rewrite main_cases.
  destruct (generate_clicked page).
  - pose proof (call_lambda_backend_content page (strip (input_topic page))
                  (input_expertise page) (strip (input_context page))) as R.
    destruct (call_lambda_backend page (strip (input_topic page))
                (input_expertise page) (strip (input_context page)))
      as [[content|f] t]; cbn [snd] in R; [|discriminate].
    destruct (truthy content); cbv zeta; cbn [fst snd];
      intros H; injection H as <-;
      rewrite app_comm_cons, !content_of_app, content_of_display;
      cbn [content_of filter is_content]; fold (content_of t);
      rewrite R; reflexivity.
  - cbv zeta. cbn [fst snd app]. intros H; injection H as <-.
    apply content_of_display.
Qed.

Lemma display_matches_state_witness :
  content_of (snd (main Visit.answered VNone))
  = if truthy (VStr "Ownership moves values.")
    then [Subheader "Generated Content";
          WriteOut (VStr "Ownership moves values.");
          Download {| data := VStr "Ownership moves values.";
                      file_name := "content_"
                                   ++ strftime_Ymd_HMS_underscore
                                        (clock Visit.answered)
                                   ++ ".txt";
                      mime := "text/plain" |}]
    else [].
Proof.
  apply (@display_matches_state Visit.answered VNone
           (VStr "Ownership moves values.")).
  reflexivity.
Defined.

(** A generation that gives nothing (a status other than 200, an
    exception of [requests], an answer without 'blog', an empty 'blog')
    leaves the session state as it was: the error 'Failed to generate
    content. Please try again.' is shown, and the content of the earlier
    generation stays on the page below it. *)
Theorem failed_generation_keeps_previous_content
        (page : Page) (session content : pyval) :
  generate_clicked page = true ->
  clear_clicked page = false ->
  fst (call_lambda_backend page (strip (input_topic page))
         (input_expertise page) (strip (input_context page))) = Done content ->
  truthy content = false ->
  fst (main page session) = Done session
  /\ In (ShowError "Failed to generate content. Please try again.")
        (snd (main page session))
  /\ content_of (snd (main page session)) = display page session.
Proof.
  intros Hg Hc Hb Ht. rewrite main_cases, Hg, Hc.
  pose proof (call_lambda_backend_content page (strip (input_topic page))
                (input_expertise page) (strip (input_context page))) as R.
  destruct (call_lambda_backend page (strip (input_topic page))
              (input_expertise page) (strip (input_context page)))
    as [[content'|f] t]; cbn [fst snd] in *; [|discriminate].
  injection Hb as ->. rewrite Ht. cbv zeta. cbn [fst snd]. repeat split.
  - right. apply in_or_app. left. apply in_or_app. right. now left.
  - rewrite app_comm_cons, !content_of_app, content_of_display.
    cbn [content_of filter is_content]. fold (content_of t). now rewrite R.
Qed.

Lemma failed_generation_keeps_previous_content_witness :
  fst (main Visit.refused (VStr "An earlier text.")) = Done (VStr "An earlier text.")
  /\ In (ShowError "Failed to generate content. Please try again.")
        (snd (main Visit.refused (VStr "An earlier text.")))
  /\ content_of (snd (main Visit.refused (VStr "An earlier text.")))
     = display Visit.refused (VStr "An earlier text.").
Proof.
  apply (@failed_generation_keeps_previous_content Visit.refused
           (VStr "An earlier text.") VNone).
  - reflexivity.
  - reflexivity.
  - reflexivity.
  - reflexivity.
Defined.

(** A click on Clear empties the session state and takes the generated
    content off the page, also in a run that generated content. *)
Theorem clear_resets (page : Page) (session : pyval) :
  clear_clicked page = true ->
  content_of (snd (main page session)) = []
  /\ forall after, fst (main page session) = Done after -> after = VNone.
Proof.
  intros Hc. rewrite main_cases, Hc.
  destruct (generate_clicked page).
  - pose proof (call_lambda_backend_content page (strip (input_topic page))
                  (input_expertise page) (strip (input_context page))) as R.
    destruct (call_lambda_backend page (strip (input_topic page))
                (input_expertise page) (strip (input_context page)))
      as [[content|f] t]; cbn [snd] in R.
    + destruct (truthy content); cbv zeta; cbn [fst snd]; split;
        try (intros after H; now injection H as <-);
        rewrite app_comm_cons, !content_of_app;
        cbn [content_of filter is_content display truthy app];
        fold (content_of t); now rewrite R.
    + cbn [fst snd]. split; [|discriminate].
      cbn [content_of filter is_content]. fold (content_of t). exact R.
  - cbv zeta. cbn [fst snd app display truthy]. split; [reflexivity|].
    intros after H. now injection H as <-.
Qed.

Lemma clear_resets_witness :
  content_of (snd (main Visit.clearing (VStr "An earlier text."))) = []
  /\ forall after,
       fst (main Visit.clearing (VStr "An earlier text.")) = Done after ->
       after = VNone.
Proof.
  apply (@clear_resets Visit.clearing (VStr "An earlier text.")).
  reflexivity.
Defined.

(* ------------------------------------------------------------------ *)
(** * The page and the handler together *)

Lemma form_validation (env : Env) (page : Page) (event : pyval) :
  request_body env event = Return (payload_json (form_request page)) ->
  validate_input env event
  = if all_space (input_topic page)
    then Raise (Exn ValueError "Blog topic is required")
    else Return (strip (input_topic page),
                 VStr (input_expertise page),
                 VStr (strip (input_context page))).
Proof.
  intros H. rewrite (validate_input_of_body _ _ H), extract_fields_cases.
  cbn -[strip]. rewrite strip_idempotent, strip_empty.
  now destruct (all_space (input_topic page)).
Qed.

(** What the form sends is validated by the handler as it stands: for
    an event that carries the payload of the page as its body,
    validation fails with 'Blog topic is required' when the topic box
    holds nothing but whitespace, and otherwise passes with the trimmed
    topic, the chosen level and the trimmed context; so the answer to the
    form is 400 or 200, never 500. *)
Theorem form_request_validation
        (env : Env) (page : Page) (event : pyval) (context : LambdaContext) :
  request_body env event
  = Return (payload_of (strip (input_topic page)) (input_expertise page)
                       (strip (input_context page))) ->
  validate_input env event
  = (if all_space (input_topic page)
     then Raise (Exn ValueError "Blog topic is required")
     else Return (strip (input_topic page),
                  VStr (input_expertise page),
                  VStr (strip (input_context page))))
  /\ exists response,
       fst (lambda_handler env event context) = Return response
       /\ statusCode response
          = if all_space (input_topic page) then 400%Z else 200%Z.
Proof.
  intros H. pose proof (@form_validation env page event H) as Hv.
  split; [exact Hv|].
  destruct (all_space (input_topic page)).
  - destruct (handler_invalid env event context Hv) as (tr & -> & _).
    eexists. split; reflexivity.
  - destruct (handler_valid env event context Hv) as (tr & -> & _).
    eexists. split; reflexivity.
Qed.

Lemma form_request_validation_witness :
  validate_input Sample.answering (Visit.event_of Visit.answered)
  = (if all_space (input_topic Visit.answered)
     then Raise (Exn ValueError "Blog topic is required")
     else Return (strip (input_topic Visit.answered),
                  VStr (input_expertise Visit.answered),
                  VStr (strip (input_context Visit.answered))))
  /\ exists response,
       fst (lambda_handler Sample.answering (Visit.event_of Visit.answered)
              lambda_context) = Return response
       /\ statusCode response
          = if all_space (input_topic Visit.answered) then 400%Z else 200%Z.
Proof.
  apply (@form_request_validation Sample.answering Visit.answered
           (Visit.event_of Visit.answered) lambda_context).
  reflexivity.
Defined.

(** A run of the page against an endpoint that hands the payload to the
    handler and hands the handler's status and body object back. *)
Lemma page_run_on_handler
      (env : Env) (page : Page) (event : pyval) (context : LambdaContext)
      (response : Response) (http : HttpResponse) (session : pyval) :
  generate_clicked page = true ->
  clear_clicked page = false ->
  all_space (input_topic page) = false ->
  request_body env event = Return (payload_json (form_request page)) ->
  fst (lambda_handler env event context) = Return response ->
  requests_post page (form_request page) = Done http ->
  status_code http = statusCode response ->
  (forall v, body response = json_dumps env v -> json http = Done v) ->
  let blog :=
    generated_blog env
      (prompt_of env (strip (input_topic page)) (input_expertise page)
                 (VStr (strip (input_context page)))) in
  main page session
  = (Done (VStr blog),
     [Spinner "Generating content...";
      Post (form_request page);
      ShowSuccess "Content generated successfully!";
      Subheader "Generated Content";
      WriteOut (VStr blog);
      Download (download_button page (VStr blog))]).
Proof.
  intros Hg Hc Ht Hb Hr Hp Hs Hj blog.
  pose proof (@form_validation env page event Hb) as Hv. rewrite Ht in Hv.
  destruct (handler_valid env event context Hv) as (tr & E & _).
  rewrite E in Hr. cbn [fst] in Hr. injection Hr as <-.
  cbn [statusCode format_response] in Hs.
  specialize (Hj _ eq_refl). fold blog in Hj.
  assert (Hcall : call_lambda_backend page (strip (input_topic page))
                    (input_expertise page) (strip (input_context page))
                  = (Done (VStr blog), [Post (form_request page)])).
  { rewrite call_lambda_backend_cases. cbv zeta.
    fold (form_request page). rewrite Hp, Hs, Hj. reflexivity. }
  rewrite main_cases, Hg, Hc, Hcall.
  assert (Htr : truthy (VStr blog) = true).
  { pose proof (generated_blog_not_empty env
                  (prompt_of env (strip (input_topic page))
                     (input_expertise page)
                     (VStr (strip (input_context page))))) as Hne.
    fold blog in Hne. apply is_empty_false in Hne. cbn [truthy]. now rewrite Hne. }
  rewrite Htr. cbv zeta. unfold display. rewrite Htr. reflexivity.
Qed.

(** Against an endpoint that hands the payload to [lambda_handler] and
    hands back the handler's status and the object it serialized, a click
    on Generate Content with a topic in the form always ends with the
    success message and a text that is not empty on the page, stored in
    the session state and offered for download. *)
Theorem page_shows_the_handler_blog
        (env : Env) (page : Page) (event : pyval) (context : LambdaContext)
        (response : Response) (http : HttpResponse) (session : pyval) :
  generate_clicked page = true ->
  clear_clicked page = false ->
  all_space (input_topic page) = false ->
  request_body env event = Return (payload_json (form_request page)) ->
  fst (lambda_handler env event context) = Return response ->
  requests_post page (form_request page) = Done http ->
  status_code http = statusCode response ->
  (forall v, body response = json_dumps env v -> json http = Done v) ->
  exists blog message,
    blog <> ""
    /\ body response = json_dumps env (blog_body blog message)
    /\ main page session
       = (Done (VStr blog),
          [Spinner "Generating content...";
           Post (form_request page);
           ShowSuccess "Content generated successfully!";
           Subheader "Generated Content";
           WriteOut (VStr blog);
           Download (download_button page (VStr blog))]).
Proof.
  intros Hg Hc Ht Hb Hr Hp Hs Hj.
  pose proof (@page_run_on_handler env page event context response http session
                Hg Hc Ht Hb Hr Hp Hs Hj) as Hm.
  pose proof (@form_validation env page event Hb) as Hv. rewrite Ht in Hv.
  destruct (handler_valid env event context Hv) as (tr & E & _).
  rewrite E in Hr. cbn [fst] in Hr. injection Hr as <-.
  eexists _, _. split; [|split; [reflexivity | exact Hm]].
  apply generated_blog_not_empty.
Qed.

Lemma dumps_answer (v : pyval) : Visit.dumps v = "answer" -> v = Visit.answer.
Proof.
  unfold Visit.dumps, Visit.answer.
  destruct v as [ | | | | | |d]; try discriminate.
  destruct d as [|[k1 x1] [|[k2 x2] [|p d]]]; try discriminate;
    destruct x1; try discriminate; destruct x2; try discriminate.
  destruct (String.eqb k1 "blog") eqn:E1; [|discriminate].
  destruct (String.eqb k2 "message") eqn:E2; [|discriminate].
  cbn [andb].
  destruct (String.eqb s "Ownership moves values.") eqn:E3.
  - destruct (String.eqb s0 UPLOADED) eqn:E4.
    + intros _. apply String.eqb_eq in E1, E2, E3, E4. now subst.
    + cbn [andb]. destruct (String.eqb s FALLBACK && String.eqb s0 NOT_UPLOADED);
        discriminate.
  - cbn [andb]. destruct (String.eqb s FALLBACK && String.eqb s0 NOT_UPLOADED);
      discriminate.
Qed.

Lemma dumps_fallback_answer (v : pyval) :
  Visit.dumps v = "fallback_answer" -> v = Visit.fallback_answer.
Proof.
  unfold Visit.dumps, Visit.fallback_answer.
  destruct v as [ | | | | | |d]; try discriminate.
  destruct d as [|[k1 x1] [|[k2 x2] [|p d]]]; try discriminate;
    destruct x1; try discriminate; destruct x2; try discriminate.
  destruct (String.eqb k1 "blog") eqn:E1; [|discriminate].
  destruct (String.eqb k2 "message") eqn:E2; [|discriminate].
  cbn [andb].
  destruct (String.eqb s "Ownership moves values." && String.eqb s0 UPLOADED);
    [discriminate|].
  destruct (String.eqb s FALLBACK) eqn:E3; [|discriminate].
  destruct (String.eqb s0 NOT_UPLOADED) eqn:E4; [|discriminate].
  intros _. apply String.eqb_eq in E1, E2, E3, E4. now subst.
Qed.

Lemma page_shows_the_handler_blog_witness :
  exists blog message,
    blog <> ""
    /\ body (format_response Visit.answering Visit.answer 200%Z)
       = json_dumps Visit.answering (blog_body blog message)
    /\ main Visit.answered VNone
       = (Done (VStr blog),
          [Spinner "Generating content...";
           Post (form_request Visit.answered);
           ShowSuccess "Content generated successfully!";
           Subheader "Generated Content";
           WriteOut (VStr blog);
           Download (download_button Visit.answered (VStr blog))]).
Proof.
  apply (@page_shows_the_handler_blog Visit.answering Visit.answered
           (Visit.event_of Visit.answered) lambda_context
           (format_response Visit.answering Visit.answer 200%Z)
           {| status_code := 200; json := Done Visit.answer |} VNone).
  - reflexivity.
  - reflexivity.
  - reflexivity.
  - reflexivity.
  - reflexivity.
  - reflexivity.
  - reflexivity.
  - intros v H. symmetry in H. apply dumps_answer in H. now subst.
Defined.

(** Against such an endpoint, a failure of the inference call is shown
    to the visitor as a success: the handler answers 200 with the
    fallback text, so the page shows 'Content generated successfully!'
    and, as the generated content, 'Failed to generate content. Please
    try again.', which it also stores and offers for download. *)
Theorem inference_failure_shown_as_success
        (env : Env) (page : Page) (event : pyval) (context : LambdaContext)
        (response : Response) (http : HttpResponse) (session : pyval) :
  generate_clicked page = true ->
  clear_clicked page = false ->
  all_space (input_topic page) = false ->
  request_body env event = Return (payload_json (form_request page)) ->
  fst (lambda_handler env event context) = Return response ->
  requests_post page (form_request page) = Done http ->
  status_code http = statusCode response ->
  (forall v, body response = json_dumps env v -> json http = Done v) ->
  (let prompt :=
     prompt_of env (strip (input_topic page)) (input_expertise page)
               (VStr (strip (input_context page))) in
   inference_unusable env prompt \/ inference_malformed env prompt) ->
  main page session
  = (Done (VStr "Failed to generate content. Please try again."),
     [Spinner "Generating content...";
      Post (form_request page);
      ShowSuccess "Content generated successfully!";
      Subheader "Generated Content";
      WriteOut (VStr "Failed to generate content. Please try again.");
      Download (download_button page
                  (VStr "Failed to generate content. Please try again."))]).
Proof.
  intros Hg Hc Ht Hb Hr Hp Hs Hj Hu.
  pose proof (@page_run_on_handler env page event context response http session
                Hg Hc Ht Hb Hr Hp Hs Hj) as Hm.
  cbv zeta in Hm, Hu.
  assert (E : generated_blog env
                (prompt_of env (strip (input_topic page)) (input_expertise page)
                   (VStr (strip (input_context page)))) = FALLBACK).
  { destruct Hu as [Hu | Hu];
      [now apply generated_blog_unusable | now apply generated_blog_malformed]. }
  rewrite E in Hm. exact Hm.
Qed.

Lemma inference_failure_shown_as_success_witness :
  main Visit.answered_fallback VNone
  = (Done (VStr "Failed to generate content. Please try again."),
     [Spinner "Generating content...";
      Post (form_request Visit.answered_fallback);
      ShowSuccess "Content generated successfully!";
      Subheader "Generated Content";
      WriteOut (VStr "Failed to generate content. Please try again.");
      Download (download_button Visit.answered_fallback
                  (VStr "Failed to generate content. Please try again."))]).
Proof.
  apply (@inference_failure_shown_as_success Visit.failing
           Visit.answered_fallback (Visit.event_of Visit.answered_fallback)
           lambda_context
           (format_response Visit.failing Visit.fallback_answer 200%Z)
           {| status_code := 200; json := Done Visit.fallback_answer |} VNone).
  - reflexivity.
  - reflexivity.
  - reflexivity.
  - reflexivity.
  - reflexivity.
  - reflexivity.
  - reflexivity.
  - intros v H. symmetry in H. apply dumps_fallback_answer in H. now subst.
  - left. left. eexists. reflexivity.
Defined.

(** Against such an endpoint, a click on Generate Content with a blank
    topic is answered 400 by the handler with the error 'Blog topic is
    required'; the page shows the status code and its own failure
    message, not the handler's error, and keeps the session state. *)
Theorem blank_topic_round_trip
        (env : Env) (page : Page) (event : pyval) (context : LambdaContext)
        (response : Response) (http : HttpResponse) (session : pyval) :
  generate_clicked page = true ->
  clear_clicked page = false ->
  all_space (input_topic page) = true ->
  request_body env event = Return (payload_json (form_request page)) ->
  fst (lambda_handler env event context) = Return response ->
  requests_post page (form_request page) = Done http ->
  status_code http = statusCode response ->
  body response
  = json_dumps env (VDict [("error", VStr "Blog topic is required");
                           ("success", VBool false)])
  /\ main page session
     = (Done session,
        [Spinner "Generating content...";
         Post (form_request page);
         ShowError "API returned status code: 400";
         ShowError "Failed to generate content. Please try again."]
        ++ display page session)%list.
Proof.
  intros Hg Hc Ht Hb Hr Hp Hs.
  pose proof (@form_validation env page event Hb) as Hv. rewrite Ht in Hv.
  destruct (handler_invalid env event context Hv) as (tr & E & _).
  rewrite E in Hr. cbn [fst] in Hr. injection Hr as <-.
  cbn [statusCode format_response] in Hs.
  split; [reflexivity|].
  assert (Hcall : call_lambda_backend page (strip (input_topic page))
                    (input_expertise page) (strip (input_context page))
                  = (Done VNone,
                     [Post (form_request page);
                      ShowError "API returned status code: 400"])).
  { rewrite call_lambda_backend_cases. cbv zeta.
    fold (form_request page). rewrite Hp, Hs. reflexivity. }
  rewrite main_cases, Hg, Hc, Hcall. reflexivity.
Qed.

Lemma blank_topic_round_trip_witness :
  body (format_response Sample.answering
          (validation_error_body "Blog topic is required") 400%Z)
  = json_dumps Sample.answering
      (VDict [("error", VStr "Blog topic is required");
              ("success", VBool false)])
  /\ main Visit.refused (VStr "An earlier text.")
     = (Done (VStr "An earlier text."),
        [Spinner "Generating content...";
         Post (form_request Visit.refused);
         ShowError "API returned status code: 400";
         ShowError "Failed to generate content. Please try again."]
        ++ display Visit.refused (VStr "An earlier text."))%list.
Proof.
  apply (@blank_topic_round_trip Sample.answering Visit.refused
           (Visit.event_of Visit.refused) lambda_context
           (format_response Sample.answering
              (validation_error_body "Blog topic is required") 400%Z)
           {| status_code := 400;
              json := Done (VDict [("error", VStr "Blog topic is required");
                                   ("success", VBool false)]) |}
           (VStr "An earlier text.")).
  - reflexivity.
  - reflexivity.
  - reflexivity.
  - reflexivity.
  - reflexivity.
  - reflexivity.
  - reflexivity.
Defined.
